(** * Payroll engine: net-pay calculation and anomaly detection

    A shallow embedding of the two services of the payroll API,

    - the gross-to-net calculator ([calculateIncomeTax], [calculateSlabTax],
      [calculateNetPay]), and
    - the anomaly detector of [route/check_payroll_anomaly.js]
      ([detectHistoricalVariance], [detectPeerVariance],
      [detectAbsoluteRules], [detectAnomalies]),

    followed by the properties of the design document that concern them.

    Conventions of the embedding.

    - A JavaScript number is a [number]: an exact rational, or one of the
      three special values [PInf], [NInf], [NaN].  Arithmetic on rationals
      is exact (binary rounding and overflow are not modelled, and there is
      one zero, which divides like [+0]); the special values follow the
      IEEE-754 rules the code runs into: [x / 0], [0 / 0], [NaN]
      propagation, and every comparison with [NaN] being false.
    - A property that may be absent from a JSON object is an [option];
      reading it yields [undefined], which arithmetic coerces to [NaN].
    - A thrown exception is the [Throw] case of [completion].
    - The rule table [TAX_RULES], the history store read by
      [readHistoryDB] and the clock behind [pay_period] are explicit
      arguments.
    - An object used as a dictionary ([professional_tax]) is a finite map
      over its own keys; what it inherits from [Object.prototype] is not
      modelled.
    - The text of a flag is kept as its template and the values
      interpolated into it, not rendered to a string. *)

From Stdlib Require Import QArith Qabs Qround Qreduction Lia.
From stdpp Require Import base option list strings gmap.

Local Open Scope string_scope.

(** ** JavaScript numbers *)

Module JSNumber.

Inductive number : Type :=
| Fin (q : Q)
| PInf
| NInf
| NaN.

(** Rational results are kept in lowest terms, so that equal values are
    equal terms. *)
Definition fin (q : Q) : number := Fin (Qred q).

Definition of_Z (z : Z) : number := Fin (inject_Z z).
Definition of_nat (n : nat) : number := of_Z (Z.of_nat n).

Definition zero : number := of_Z 0.

(** [ToNumber] on a value that is a number or [undefined]. *)
Definition to_number (v : option number) : number :=
  match v with
  | Some x => x
  | None => NaN
  end.

Definition neg (x : number) : number :=
  match x with
  | Fin a => fin (- a)
  | PInf => NInf
  | NInf => PInf
  | NaN => NaN
  end.

Definition add (x y : number) : number :=
  match x, y with
  | NaN, _ | _, NaN => NaN
  | Fin a, Fin b => fin (a + b)
  | PInf, NInf | NInf, PInf => NaN
  | PInf, _ | _, PInf => PInf
  | NInf, _ | _, NInf => NInf
  end.

Definition sub (x y : number) : number := add x (neg y).

(** The infinity whose sign is that of [a] times [s]; [0 * Infinity] is
    [NaN]. *)
Definition signed_inf (s : bool) (a : Q) : number :=
  match (a ?= 0)%Q with
  | Gt => if s then PInf else NInf
  | Lt => if s then NInf else PInf
  | Eq => NaN
  end.

Definition mul (x y : number) : number :=
  match x, y with
  | NaN, _ | _, NaN => NaN
  | Fin a, Fin b => fin (a * b)
  | Fin a, PInf | PInf, Fin a => signed_inf true a
  | Fin a, NInf | NInf, Fin a => signed_inf false a
  | PInf, PInf | NInf, NInf => PInf
  | PInf, NInf | NInf, PInf => NInf
  end.

Definition div (x y : number) : number :=
  match x, y with
  | NaN, _ | _, NaN => NaN
  | Fin a, Fin b =>
      if Qeq_bool b 0 then signed_inf true a else fin (a / b)
  | Fin _, (PInf | NInf) => zero
  | PInf, Fin b => match (b ?= 0)%Q with Lt => NInf | _ => PInf end
  | NInf, Fin b => match (b ?= 0)%Q with Lt => PInf | _ => NInf end
  | (PInf | NInf), (PInf | NInf) => NaN
  end.

(** [x < y]; false as soon as one side is [NaN]. *)
Definition lt (x y : number) : bool :=
  match x, y with
  | NaN, _ | _, NaN => false
  | Fin a, Fin b => match (a ?= b)%Q with Lt => true | _ => false end
  | NInf, (Fin _ | PInf) => true
  | Fin _, PInf => true
  | _, _ => false
  end.

(** [x <= y]; false as soon as one side is [NaN]. *)
Definition le (x y : number) : bool :=
  match x, y with
  | NaN, _ | _, NaN => false
  | Fin a, Fin b => match (a ?= b)%Q with Gt => false | _ => true end
  | NInf, _ => true
  | _, PInf => true
  | _, _ => false
  end.

Definition gt (x y : number) : bool := lt y x.
Definition ge (x y : number) : bool := le y x.

(** [Math.abs]. *)
Definition abs (x : number) : number :=
  match x with
  | Fin a => fin (Qabs a)
  | PInf | NInf => PInf
  | NaN => NaN
  end.

(** [Math.round]: the nearest integer, ties towards [+Infinity]. *)
Definition round (x : number) : number :=
  match x with
  | Fin a => of_Z (Qfloor (a + (1 # 2)))
  | _ => x
  end.

Definition is_nan (x : number) : bool :=
  match x with NaN => true | _ => false end.

(** [x === y] on numbers: equality of values, [NaN] equal to nothing. *)
Definition eqb (x y : number) : bool :=
  match x, y with
  | Fin a, Fin b => Qeq_bool a b
  | PInf, PInf | NInf, NInf => true
  | _, _ => false
  end.

(** The literals of the source. *)
Definition lit_0_5 : number := Fin (1 # 2).
Definition lit_0_2 : number := Fin (1 # 5).
Definition lit_1_5 : number := Fin (3 # 2).
Definition lit_3 : number := of_Z 3.
Definition lit_2 : number := of_Z 2.
Definition lit_100 : number := of_Z 100.

End JSNumber.

(** ** Exceptions *)

Inductive exn : Type :=
| Error (message : string)
| TypeError (message : string).

Inductive completion (A : Type) : Type :=
| Return (a : A)
| Throw (e : exn).

Arguments Return {A} a.
Arguments Throw {A} e.

Definition bind {A B : Type} (c : completion A) (k : A -> completion B)
  : completion B :=
  match c with
  | Return a => k a
  | Throw e => Throw e
  end.

Notation "'let*' x ':=' c 'in' k" := (bind c (fun x => k))
  (at level 10, x name, c at level 100, k at level 200).

Definition returns {A : Type} (c : completion A) : Prop :=
  exists a, c = Return a.


(** ** The net-pay calculator *)

Module IncomeSlab.
(** An entry [{min, max, rate}] of [income_tax_slabs]. *)
Record t : Type := { min : JSNumber.number;
                     max : JSNumber.number;
                     rate : JSNumber.number }.
End IncomeSlab.

Module TaxSlab.
(** An entry [{min, max, tax}] of a professional-tax table. *)
Record t : Type := { min : JSNumber.number;
                     max : JSNumber.number;
                     tax : JSNumber.number }.
End TaxSlab.

Module TaxRules.
(** The parsed [tax_rules.json]; every section may be absent, and all of
    them are when loading failed and [TAX_RULES] stayed [{}]. *)
Record t : Type := {
  income_tax_slabs : option (list IncomeSlab.t);
  social_security_percent : option JSNumber.number;
  professional_tax : option (gmap string (list TaxSlab.t))
}.

Definition not_loaded : t :=
  {| income_tax_slabs := None;
     social_security_percent := None;
     professional_tax := None |}.
End TaxRules.

Module Employee.
Record t : Type := {
  employee_id : string;
  name : string;
  department : string;
  location : option string;
  salary : option JSNumber.number;
  bonus : option JSNumber.number;
  deductions : option JSNumber.number
}.
End Employee.

Module Breakdown.
Record t : Type := {
  company_tax : JSNumber.number;
  social_security : JSNumber.number;
  professional_tax : JSNumber.number;
  personal_deductions : option JSNumber.number;
  total_deductions : JSNumber.number
}.
End Breakdown.

Module NetPayResult.
Record t : Type := {
  employee_id : string;
  gross_pay : JSNumber.number;
  net_pay : JSNumber.number;
  breakdown : Breakdown.t
}.
End NetPayResult.

Module NetPayCalculator.
Import JSNumber.

(** [slabs.find] on a value that is not an array. *)
Definition find_of_undefined : exn :=
  TypeError "Cannot read properties of undefined (reading 'find')".

(** The predicate [slab => grossPay >= slab.min && grossPay <= slab.max],
    as written in [calculateIncomeTax]. *)
Definition income_slab_applies (grossPay : number) (slab : IncomeSlab.t) : bool :=
  ge grossPay (IncomeSlab.min slab) && le grossPay (IncomeSlab.max slab).

(** The same predicate, as written in [calculateSlabTax]. *)
Definition tax_slab_applies (grossPay : number) (slab : TaxSlab.t) : bool :=
  ge grossPay (TaxSlab.min slab) && le grossPay (TaxSlab.max slab).

Definition calculateIncomeTax (grossPay : number)
    (slabs : option (list IncomeSlab.t)) : completion number :=
  match slabs with
  | None => Throw find_of_undefined
  | Some slabs =>
      let tax := zero in
      let applicableSlab := List.find (income_slab_applies grossPay) slabs in
      Return match applicableSlab with
             | Some applicableSlab => mul grossPay (IncomeSlab.rate applicableSlab)
             | None => tax
             end
  end.

Definition calculateSlabTax (grossPay : number)
    (slabs : option (list TaxSlab.t)) : completion number :=
  match slabs with
  | None => Throw find_of_undefined
  | Some slabs =>
      let applicableSlab := List.find (tax_slab_applies grossPay) slabs in
      Return match applicableSlab with
             | Some applicableSlab => TaxSlab.tax applicableSlab
             | None => zero
             end
  end.

(** The property key that [obj[employee.location]] reads: an absent
    location is the key ["undefined"]. *)
Definition location_key (location : option string) : string :=
  match location with
  | Some l => l
  | None => "undefined"
  end.

(** [professional_tax[employee.location] || professional_tax.default]:
    an array is truthy, so the right operand is used exactly when the
    left lookup finds nothing. *)
Definition locationRules (professional_tax : gmap string (list TaxSlab.t))
    (location : option string) : option (list TaxSlab.t) :=
  match professional_tax !! location_key location with
  | Some slabs => Some slabs
  | None => professional_tax !! "default"
  end.

Definition calculateNetPay (TAX_RULES : TaxRules.t)
    (employee : option Employee.t) : completion NetPayResult.t :=
  match employee with
  | None => Throw (Error "Employee data is required.")
  | Some employee =>
    match TaxRules.professional_tax TAX_RULES with
    | None => Throw (Error "Tax rules are not loaded.")
    | Some professional_tax =>
      let grossPay :=
        add (to_number (Employee.salary employee))
            (to_number (Employee.bonus employee)) in
      let* companyTax :=
        calculateIncomeTax grossPay (TaxRules.income_tax_slabs TAX_RULES) in
      let socialSecurity :=
        mul grossPay (to_number (TaxRules.social_security_percent TAX_RULES)) in
      let* professionalTax :=
        calculateSlabTax grossPay
          (locationRules professional_tax (Employee.location employee)) in
      let personalDeductions := Employee.deductions employee in
      let totalDeductions :=
        add (add (add companyTax socialSecurity) professionalTax)
            (to_number personalDeductions) in
      let netPay := sub grossPay totalDeductions in
      Return {| NetPayResult.employee_id := Employee.employee_id employee;
                NetPayResult.gross_pay := grossPay;
                NetPayResult.net_pay := netPay;
                NetPayResult.breakdown :=
                  {| Breakdown.company_tax := companyTax;
                     Breakdown.social_security := socialSecurity;
                     Breakdown.professional_tax := professionalTax;
                     Breakdown.personal_deductions := personalDeductions;
                     Breakdown.total_deductions := totalDeductions |} |}
    end
  end.

End NetPayCalculator.

(** ** The anomaly detector *)

Module HistoryRecord.
(** A line of [payroll_history.json]. *)
Record t : Type := {
  employee_id : string;
  pay_period : string;
  net_pay : JSNumber.number
}.
End HistoryRecord.

Inductive Level : Type := REVIEW | ANOMALY.

Inductive Status : Type := CLEAN | REVIEW_REQUIRED | ANOMALY_DETECTED.

(** The text of a flag: one constructor per template string of the
    source, carrying the values the template interpolates. *)
Inductive Reason : Type :=
| NetPayJump (percent avg proposed : JSNumber.number)
| NetPayChange (percent avg proposed : JSNumber.number)
| SalaryOver3x (salary : option JSNumber.number) (avg : JSNumber.number)
               (department : string) (location : option string)
| SalaryOver1_5x (salary : option JSNumber.number) (avg : JSNumber.number)
                 (department : string) (location : option string)
| NetPayNegative
| BonusOver200Percent.

Module Flag.
Record t : Type := { level : Level; reason : Reason }.
End Flag.

Module ReportEntry.
Record t : Type := {
  employee_id : string;
  name : string;
  flags : list Flag.t
}.
End ReportEntry.

Module Report.
Record t : Type := {
  pay_period : string;
  status : Status;
  report : list ReportEntry.t
}.
End Report.

Module AnomalyDetector.
Import JSNumber.
Local Open Scope list_scope.

(** [a === b] on strings and on values that are a string or [undefined]. *)
Definition strict_eq {A : Type} `{EqDecision A} (a b : A) : bool :=
  bool_decide (a = b).

Definition is_anomaly (l : Level) : bool :=
  match l with ANOMALY => true | REVIEW => false end.

Definition detectHistoricalVariance (employee : Employee.t)
    (proposedPay : NetPayResult.t) (historyDB : list HistoryRecord.t)
  : list Flag.t :=
  let flags := [] in
  let employeeHistory :=
    List.filter
      (fun h => strict_eq (HistoryRecord.employee_id h)
                          (Employee.employee_id employee))
      historyDB in
  if (length employeeHistory <? 3)%nat then flags
  else
    let recentHistory := firstn 6 employeeHistory in
    let total :=
      fold_left (fun acc record => add acc (HistoryRecord.net_pay record))
                recentHistory zero in
    let avgHistoryNetPay := div total (of_nat (length recentHistory)) in
    let currentNetPay := NetPayResult.net_pay proposedPay in
    let percentChange :=
      div (sub currentNetPay avgHistoryNetPay) avgHistoryNetPay in
    if gt (abs percentChange) lit_0_5 then
      flags ++ [ {| Flag.level := ANOMALY;
                    Flag.reason :=
                      NetPayJump (round (mul percentChange lit_100))
                                 (round avgHistoryNetPay)
                                 (round currentNetPay) |} ]
    else if gt (abs percentChange) lit_0_2 then
      flags ++ [ {| Flag.level := REVIEW;
                    Flag.reason :=
                      NetPayChange (round (mul percentChange lit_100))
                                   (round avgHistoryNetPay)
                                   (round currentNetPay) |} ]
    else flags.

Definition detectPeerVariance (employee : Employee.t)
    (proposedPayroll : list Employee.t) : list Flag.t :=
  let flags := [] in
  let peerGroup :=
    List.filter
      (fun p =>
         strict_eq (Employee.department p) (Employee.department employee)
         && strict_eq (Employee.location p) (Employee.location employee)
         && negb (strict_eq (Employee.employee_id p)
                            (Employee.employee_id employee)))
      proposedPayroll in
  if (length peerGroup <? 1)%nat then flags
  else
    let total :=
      fold_left (fun acc p => add acc (to_number (Employee.salary p)))
                peerGroup zero in
    let avgPeerSalary := div total (of_nat (length peerGroup)) in
    let currentSalary := Employee.salary employee in
    if gt (to_number currentSalary) (mul avgPeerSalary lit_3) then
      flags ++ [ {| Flag.level := ANOMALY;
                    Flag.reason :=
                      SalaryOver3x currentSalary (round avgPeerSalary)
                                   (Employee.department employee)
                                   (Employee.location employee) |} ]
    else if gt (to_number currentSalary) (mul avgPeerSalary lit_1_5) then
      flags ++ [ {| Flag.level := REVIEW;
                    Flag.reason :=
                      SalaryOver1_5x currentSalary (round avgPeerSalary)
                                     (Employee.department employee)
                                     (Employee.location employee) |} ]
    else flags.

Definition detectAbsoluteRules (employee : Employee.t)
    (proposedPay : NetPayResult.t) : list Flag.t :=
  let flags := [] in
  let flags :=
    if lt (NetPayResult.net_pay proposedPay) zero then
      flags ++ [ {| Flag.level := ANOMALY; Flag.reason := NetPayNegative |} ]
    else flags in
  let flags :=
    if gt (to_number (Employee.bonus employee))
          (mul (to_number (Employee.salary employee)) lit_2) then
      flags ++ [ {| Flag.level := REVIEW;
                    Flag.reason := BonusOver200Percent |} ]
    else flags in
  flags.

(** The three strategies on one employee, in the order of the array
    literal of [detectAnomalies]. *)
Definition employee_flags (historyDB : list HistoryRecord.t)
    (proposedPayroll : list Employee.t) (employee : Employee.t)
    (proposedPay : NetPayResult.t) : list Flag.t :=
  detectHistoricalVariance employee proposedPay historyDB
  ++ detectPeerVariance employee proposedPayroll
  ++ detectAbsoluteRules employee proposedPay.

(** The [for ... of] loop of [detectAnomalies]: [todo] is what is left of
    the batch, [allFlags] the entries pushed so far. *)
Fixpoint detectAnomalies_loop (TAX_RULES : TaxRules.t)
    (historyDB : list HistoryRecord.t) (proposedPayroll : list Employee.t)
    (todo : list Employee.t) (allFlags : list ReportEntry.t)
  : completion (list ReportEntry.t) :=
  match todo with
  | [] => Return allFlags
  | employee :: todo =>
      let* proposedPay :=
        NetPayCalculator.calculateNetPay TAX_RULES (Some employee) in
      let flags :=
        employee_flags historyDB proposedPayroll employee proposedPay in
      let allFlags :=
        if (0 <? length flags)%nat then
          allFlags ++ [ {| ReportEntry.employee_id :=
                             Employee.employee_id employee;
                           ReportEntry.name := Employee.name employee;
                           ReportEntry.flags := flags |} ]
        else allFlags in
      detectAnomalies_loop TAX_RULES historyDB proposedPayroll todo allFlags
  end.

(** [historyDB] is what [readHistoryDB ()] returned and [current_period]
    what [new Date().toISOString().slice(0, 7)] evaluates to. *)
Definition detectAnomalies (TAX_RULES : TaxRules.t)
    (historyDB : list HistoryRecord.t) (current_period : string)
    (proposedPayroll : list Employee.t) : completion Report.t :=
  let overallStatus := CLEAN in
  let* allFlags :=
    detectAnomalies_loop TAX_RULES historyDB proposedPayroll
                         proposedPayroll [] in
  let overallStatus :=
    if existsb (fun f => existsb (fun fl => is_anomaly (Flag.level fl))
                                 (ReportEntry.flags f))
               allFlags then ANOMALY_DETECTED
    else if (0 <? length allFlags)%nat then REVIEW_REQUIRED
    else overallStatus in
  Return {| Report.pay_period := current_period;
            Report.status := overallStatus;
            Report.report := allFlags |}.

End AnomalyDetector.

(** ** The notions of the design document

    Stated from the text of the design, to be compared with what the code
    computes. *)

Module Design.
Import JSNumber.
Local Open Scope list_scope.


(** [lo <= g <= hi], both ends included. *)
Definition in_range (lo hi g : number) : Prop :=
  le lo g = true /\ le g hi = true.

(** Left-to-right sum from [0], and the mean it gives. *)
Definition sum (l : list number) : number := fold_left add l zero.

Definition mean (l : list number) : number :=
  div (sum l) (of_nat (length l)).

(** The history records of an employee, in the order of the store. *)
Definition matching_history (employee : Employee.t)
    (historyDB : list HistoryRecord.t) : list HistoryRecord.t :=
  List.filter
    (fun h => String.eqb (HistoryRecord.employee_id h)
                         (Employee.employee_id employee))
    historyDB.

(** Mean net pay of the first (up to) six matching records. *)
Definition history_average (employee : Employee.t)
    (historyDB : list HistoryRecord.t) : number :=
  mean (map HistoryRecord.net_pay
            (firstn 6 (matching_history employee historyDB))).

Definition percent_change (current avg : number) : number :=
  div (sub current avg) avg.

(** The other members of the batch with the employee's department and
    location. *)
Definition peer_group (employee : Employee.t) (batch : list Employee.t)
  : list Employee.t :=
  List.filter
    (fun p =>
       negb (String.eqb (Employee.employee_id p)
                        (Employee.employee_id employee))
       && String.eqb (Employee.department p) (Employee.department employee)
       && match Employee.location p, Employee.location employee with
          | Some a, Some b => String.eqb a b
          | None, None => true
          | _, _ => false
          end)
    batch.

Definition peer_average (employee : Employee.t) (batch : list Employee.t)
  : number :=
  mean (map (fun p => to_number (Employee.salary p))
            (peer_group employee batch)).

(** A list holding exactly one flag, of the given level. *)
Definition one_flag (level : Level) (flags : list Flag.t) : Prop :=
  exists reason,
    flags = [ {| Flag.level := level; Flag.reason := reason |} ].

Definition has_level (level : Level) (flags : list Flag.t) : Prop :=
  exists flag, In flag flags /\ Flag.level flag = level.


End Design.

(** ** Sample data

    The scenarios of the design document and a few degenerate inputs. *)

Module Scenario.
Import JSNumber.
Local Open Scope list_scope.

Definition wide (tax : number) : TaxSlab.t :=
  {| TaxSlab.min := of_Z 0; TaxSlab.max := of_Z 9999999; TaxSlab.tax := tax |}.

Definition mumbai : list TaxSlab.t :=
  [ {| TaxSlab.min := of_Z 0; TaxSlab.max := of_Z 7500;
       TaxSlab.tax := of_Z 0 |};
    {| TaxSlab.min := of_Z 7501; TaxSlab.max := of_Z 10000;
       TaxSlab.tax := of_Z 175 |};
    {| TaxSlab.min := of_Z 10001; TaxSlab.max := of_Z 9999999;
       TaxSlab.tax := of_Z 200 |} ].

Definition tables : gmap string (list TaxSlab.t) :=
  <["Mumbai" := mumbai]>
    (<["Delhi" := [wide (of_Z 0)]]> (<["default" := [wide (of_Z 0)]]> ∅)).

Definition flat_income : list IncomeSlab.t :=
  [ {| IncomeSlab.min := of_Z 0; IncomeSlab.max := of_Z 9999999;
       IncomeSlab.rate := Fin (1 # 10) |} ].

Definition rules : TaxRules.t :=
  {| TaxRules.income_tax_slabs := Some flat_income;
     TaxRules.social_security_percent := Some (Fin (3 # 25));
     TaxRules.professional_tax := Some tables |}.



(** Two income slabs sharing the boundary 10000, and two flat slabs doing
    the same. *)
Definition low_income : IncomeSlab.t :=
  {| IncomeSlab.min := of_Z 0; IncomeSlab.max := of_Z 10000;
     IncomeSlab.rate := Fin (1 # 10) |}.

Definition high_income : IncomeSlab.t :=
  {| IncomeSlab.min := of_Z 10000; IncomeSlab.max := of_Z 20000;
     IncomeSlab.rate := Fin (1 # 5) |}.

Definition low_flat : TaxSlab.t :=
  {| TaxSlab.min := of_Z 0; TaxSlab.max := of_Z 10000;
     TaxSlab.tax := of_Z 175 |}.

Definition high_flat : TaxSlab.t :=
  {| TaxSlab.min := of_Z 10000; TaxSlab.max := of_Z 20000;
     TaxSlab.tax := of_Z 200 |}.

Definition person (id department : string) (location : option string)
    (salary bonus deductions : option number) : Employee.t :=
  {| Employee.employee_id := id;
     Employee.name := id;
     Employee.department := department;
     Employee.location := location;
     Employee.salary := salary;
     Employee.bonus := bonus;
     Employee.deductions := deductions |}.

(** Scenario A of the design document. *)
Definition asha : Employee.t :=
  person "e101" "Engineering" (Some "Mumbai")
         (Some (of_Z 80000)) (Some (of_Z 10000)) (Some (of_Z 5000)).


(** A record without [salary]. *)
Definition unpaid : Employee.t :=
  person "e103" "Sales" (Some "Delhi")
         None (Some (of_Z 10000)) (Some (of_Z 5000)).

(** Deductions above gross pay and a bonus above twice the salary. *)
Definition windfall : Employee.t :=
  person "e104" "Sales" (Some "Delhi")
         (Some (of_Z 1000)) (Some (of_Z 3000)) (Some (of_Z 9000)).

Definition peer (id : string) (salary : Z) : Employee.t :=
  person id "Engineering" (Some "Mumbai")
         (Some (of_Z salary)) (Some (of_Z 0)) (Some (of_Z 0)).

Definition past (id period : string) (net_pay : Z) : HistoryRecord.t :=
  {| HistoryRecord.employee_id := id;
     HistoryRecord.pay_period := period;
     HistoryRecord.net_pay := of_Z net_pay |}.

(** Three pay periods at 50000, among records of somebody else. *)
Definition steady_history : list HistoryRecord.t :=
  [ past "e101" "2025-10" 50000; past "e555" "2025-10" 1;
    past "e101" "2025-09" 50000; past "e101" "2025-08" 50000 ].

(** Three pay periods whose net pay sums to zero. *)
Definition zero_history : list HistoryRecord.t :=
  [ past "e101" "2025-10" 0; past "e101" "2025-09" 0;
    past "e101" "2025-08" 0 ].


Definition pay (id : string) (net_pay : number) : NetPayResult.t :=
  {| NetPayResult.employee_id := id;
     NetPayResult.gross_pay := net_pay;
     NetPayResult.net_pay := net_pay;
     NetPayResult.breakdown :=
       {| Breakdown.company_tax := zero;
          Breakdown.social_security := zero;
          Breakdown.professional_tax := zero;
          Breakdown.personal_deductions := Some zero;
          Breakdown.total_deductions := zero |} |}.

End Scenario.


(** ** The report, entry by entry *)

Module Reporting.
Local Open Scope list_scope.

(** What one turn of the loop of [detectAnomalies] pushes for [employee]:
    one entry when the strategies emit something, nothing when they do
    not. *)
Definition pushed (TAX_RULES : TaxRules.t) (historyDB : list HistoryRecord.t)
    (proposedPayroll : list Employee.t) (employee : Employee.t)
  : list ReportEntry.t :=
  match NetPayCalculator.calculateNetPay TAX_RULES (Some employee) with
  | Return proposedPay =>
      let flags :=
        AnomalyDetector.employee_flags historyDB proposedPayroll
                                       employee proposedPay in
      if (0 <? length flags)%nat then
        [ {| ReportEntry.employee_id := Employee.employee_id employee;
             ReportEntry.name := Employee.name employee;
             ReportEntry.flags := flags |} ]
      else []
  | Throw _ => []
  end.

End Reporting.


(** ** JSON values of a request body *)

Module JSValue.
Import JSNumber.

(** A value of a parsed JSON body, or [undefined] for a property that is
    not there; [Obj] stands for any object or array. *)
Inductive value : Type :=
| Undefined
| Null
| Bool (b : bool)
| Num (n : number)
| Str (s : string)
| Obj.

(** [typeof v]. *)
Definition typeof (v : value) : string :=
  match v with
  | Undefined => "undefined"
  | Null => "object"
  | Bool _ => "boolean"
  | Num _ => "number"
  | Str _ => "string"
  | Obj => "object"
  end.

(** [ToBoolean]: what [!v] negates. *)
Definition truthy (v : value) : bool :=
  match v with
  | Undefined | Null => false
  | Bool b => b
  | Num n => negb (eqb n zero || is_nan n)
  | Str s => negb (String.eqb s "")
  | Obj => true
  end.

(** The one-byte white space and line terminators: TAB, LF, VT, FF, CR
    and SP. *)
Definition space1 (c1 : Ascii.ascii) : bool :=
  let b1 := Ascii.nat_of_ascii c1 in
  ((9 <=? b1) && (b1 <=? 13) || (b1 =? 32))%nat.

(** U+00A0 in UTF-8. *)
Definition space2 (c1 c2 : Ascii.ascii) : bool :=
  ((Ascii.nat_of_ascii c1 =? 194) && (Ascii.nat_of_ascii c2 =? 160))%nat.

(** U+1680, U+2000 to U+200A, U+2028, U+2029, U+202F, U+205F, U+3000 and
    U+FEFF in UTF-8. *)
Definition space3 (c1 c2 c3 : Ascii.ascii) : bool :=
  let b1 := Ascii.nat_of_ascii c1 in
  let b2 := Ascii.nat_of_ascii c2 in
  let b3 := Ascii.nat_of_ascii c3 in
  ((b1 =? 225) && (b2 =? 154) && (b3 =? 128)
   || (b1 =? 226) && (b2 =? 128)
      && ((128 <=? b3) && (b3 <=? 138) || (b3 =? 168) || (b3 =? 169)
          || (b3 =? 175))
   || (b1 =? 226) && (b2 =? 129) && (b3 =? 159)
   || (b1 =? 227) && (b2 =? 128) && (b3 =? 128)
   || (b1 =? 239) && (b2 =? 187) && (b3 =? 191))%nat.

(** [s.trim() === ''], a string being the bytes of its UTF-8 encoding:
    every character of [s] is white space or a line terminator. *)
Fixpoint blank (s : string) : bool :=
  match s with
  | EmptyString => true
  | String c1 s1 =>
      if space1 c1 then blank s1
      else
        match s1 with
        | EmptyString => false
        | String c2 s2 =>
            if space2 c1 c2 then blank s2
            else
              match s2 with
              | EmptyString => false
              | String c3 s3 => if space3 c1 c2 c3 then blank s3 else false
              end
        end
  end.

(** [v.trim() === ''], which the source evaluates on strings only. *)
Definition trims_to_empty (v : value) : bool :=
  match v with
  | Str s => blank s
  | _ => false
  end.

(** [v < 0], which the source evaluates on numbers only. *)
Definition below_zero (v : value) : bool :=
  match v with
  | Num n => lt n zero
  | _ => false
  end.

(** [id === v] for a string [id]. *)
Definition is_string (id : string) (v : value) : bool :=
  match v with
  | Str s => String.eqb id s
  | _ => false
  end.

(** The string and the number a validated property holds. *)
Definition text (v : value) : string :=
  match v with
  | Str s => s
  | _ => ""
  end.

Definition amount (v : value) : option number :=
  match v with
  | Num n => Some n
  | _ => None
  end.

End JSValue.

(** ** The payroll records API *)

Module PayrollBody.
(** The properties of a request body that the routes read. *)
Record t : Type := {
  employee_id : JSValue.value;
  name : JSValue.value;
  department : JSValue.value;
  salary : JSValue.value;
  bonus : JSValue.value;
  deductions : JSValue.value
}.
End PayrollBody.

Module Http.

(** What a handler may pass to [next]. *)
Inductive thrown : Type :=
| ValidationError (message : string)
| Failure (e : exn).

Inductive payload : Type :=
| NoContent
| ErrorMessage (error : string)
| OneRecord (employee : Employee.t)
| AllRecords (db : list Employee.t)
| AnomalyReport (report : Report.t).

(** What a handler does with a request: [res.status(status).send(body)]
    or [next(error)]. *)
Inductive outcome : Type :=
| Sent (status : nat) (body : payload)
| Next (error : thrown).

End Http.

Module PayrollRoutes.
Import JSNumber JSValue Http.
Local Open Scope list_scope.

(** [validatePayroll] returns [true] or throws a [ValidationError]. *)
Inductive validation : Type :=
| Valid
| Invalid (message : string).

(** [!v || typeof v !== 'string' || v.trim() === ''] *)
Definition not_a_name (v : value) : bool :=
  negb (truthy v) || negb (String.eqb (typeof v) "string") || trims_to_empty v.

(** [v === undefined || typeof v !== 'number' || v < 0] *)
Definition not_an_amount (v : value) : bool :=
  match v with Undefined => true | _ => false end
  || negb (String.eqb (typeof v) "number") || below_zero v.

Definition validatePayroll (requestBody : PayrollBody.t) : validation :=
  let employee_id := PayrollBody.employee_id requestBody in
  let name := PayrollBody.name requestBody in
  let department := PayrollBody.department requestBody in
  let salary := PayrollBody.salary requestBody in
  let bonus := PayrollBody.bonus requestBody in
  let deductions := PayrollBody.deductions requestBody in
  if not_a_name employee_id then
    Invalid "employee_id is required and must be a non-empty string."
  else if not_a_name name then
    Invalid "name is required and must be a non-empty string."
  else if not_a_name department then
    Invalid "department is required and must be a non-empty string."
  else if not_an_amount salary then
    Invalid "salary is required and must be a non-negative number."
  else if not_an_amount bonus then
    Invalid "bonus is required and must be a non-negative number."
  else if not_an_amount deductions then
    Invalid "deductions is required and must be a non-negative number."
  else Valid.

(** The object literal both [POST] and [PUT] build from a validated
    body; it has no [location]. *)
Definition record_of (body : PayrollBody.t) : Employee.t :=
  {| Employee.employee_id := text (PayrollBody.employee_id body);
     Employee.name := text (PayrollBody.name body);
     Employee.department := text (PayrollBody.department body);
     Employee.location := None;
     Employee.salary := amount (PayrollBody.salary body);
     Employee.bonus := amount (PayrollBody.bonus body);
     Employee.deductions := amount (PayrollBody.deductions body) |}.

(** [Array.prototype.findIndex], [None] standing for [-1]. *)
Fixpoint findIndex {A : Type} (f : A -> bool) (l : list A) : option nat :=
  match l with
  | [] => None
  | x :: l => if f x then Some 0%nat else S <$> findIndex f l
  end.

(** Each handler gets [db], what [readDB ()] returned, and gives what it
    does with the request together with the array it hands to [writeDB],
    if any. *)

(** [POST /payroll] *)
Definition post_payroll (db : list Employee.t) (body : PayrollBody.t)
  : outcome * option (list Employee.t) :=
  match validatePayroll body with
  | Invalid message => (Next (ValidationError message), None)
  | Valid =>
      match List.find
              (fun emp => is_string (Employee.employee_id emp)
                                    (PayrollBody.employee_id body)) db with
      | Some _ =>
          (Sent 409 (ErrorMessage "Employee with this ID already exists."),
           None)
      | None =>
          let newEmployee := record_of body in
          let db := db ++ [newEmployee] in
          (Sent 201 (OneRecord newEmployee), Some db)
      end
  end.

(** [GET /payroll] *)
Definition get_payroll (db : list Employee.t) : outcome :=
  Sent 200 (AllRecords db).

(** [GET /payroll/:id] *)
Definition get_payroll_id (db : list Employee.t) (id : string) : outcome :=
  match List.find (fun emp => String.eqb (Employee.employee_id emp) id) db with
  | None => Sent 404 (ErrorMessage "Employee not found.")
  | Some employee => Sent 200 (OneRecord employee)
  end.

(** [PUT /payroll/:id] *)
Definition put_payroll_id (db : list Employee.t) (id : string)
    (body : PayrollBody.t) : outcome * option (list Employee.t) :=
  match validatePayroll body with
  | Invalid message => (Next (ValidationError message), None)
  | Valid =>
      if negb (is_string id (PayrollBody.employee_id body)) then
        (Next (ValidationError "Employee ID in URL does not match body."),
         None)
      else
        match findIndex
                (fun emp => String.eqb (Employee.employee_id emp) id) db with
        | None => (Sent 404 (ErrorMessage "Employee not found."), None)
        | Some employeeIndex =>
            let updatedEmployee := record_of body in
            let db := <[employeeIndex := updatedEmployee]> db in
            (Sent 200 (OneRecord updatedEmployee), Some db)
        end
  end.


(** The array [readDB ()] returns after the request, when the write goes
    through. *)
Definition stored (db : list Employee.t) (written : option (list Employee.t))
  : list Employee.t :=
  match written with
  | Some db => db
  | None => db
  end.

End PayrollRoutes.

(** ** The detection route *)

Module ServiceRoutes.
Import Http.


End ServiceRoutes.


(** ** Sample requests *)

Module Requests.
Import JSNumber JSValue.
Local Open Scope list_scope.

Definition body (id name department : string) (salary bonus deductions : Z)
  : PayrollBody.t :=
  {| PayrollBody.employee_id := Str id;
     PayrollBody.name := Str name;
     PayrollBody.department := Str department;
     PayrollBody.salary := Num (of_Z salary);
     PayrollBody.bonus := Num (of_Z bonus);
     PayrollBody.deductions := Num (of_Z deductions) |}.

(** A body whose [salary] overflowed to [Infinity] when it was parsed. *)
Definition unbounded : PayrollBody.t :=
  {| PayrollBody.employee_id := Str "e400";
     PayrollBody.name := Str "Noor";
     PayrollBody.department := Str "Sales";
     PayrollBody.salary := Num PInf;
     PayrollBody.bonus := Num (of_Z 0);
     PayrollBody.deductions := Num (of_Z 0) |}.

(** A body whose [name] is a tab and a no-break space. *)
Definition nameless : PayrollBody.t :=
  {| PayrollBody.employee_id := Str "e401";
     PayrollBody.name :=
       Str (String (Ascii.ascii_of_nat 9)
              (String (Ascii.ascii_of_nat 194)
                 (String (Ascii.ascii_of_nat 160) EmptyString)));
     PayrollBody.department := Str "Sales";
     PayrollBody.salary := Num (of_Z 1);
     PayrollBody.bonus := Num (of_Z 0);
     PayrollBody.deductions := Num (of_Z 0) |}.

(** A database of three records, one of them with a location. *)
Definition db : list Employee.t :=
  [ Scenario.asha; Scenario.peer "e201" 30000; Scenario.peer "e202" 50000 ].

End Requests.

(** * Properties *)

(** ** Order facts on numbers *)

Section NumberFacts.
Import JSNumber.



End NumberFacts.

(** ** The net-pay calculator *)

Section NetPay.
Import JSNumber NetPayCalculator.
Local Open Scope list_scope.

Lemma add_NaN_r (x : number) : add x NaN = NaN.
Proof. destruct x; reflexivity. Qed.



(** [Array.prototype.find] returns the element of least index that
    satisfies the predicate. *)
Lemma find_least {A : Type} (f : A -> bool) (l : list A) (i : nat) (x : A) :
  l !! i = Some x ->
  f x = true ->
  (forall j y, (j < i)%nat -> l !! j = Some y -> f y = false) ->
  List.find f l = Some x.
Proof.
  revert i. induction l as [|a l IH]; intros i Hi Hx Hbefore.
  - discriminate.
  - destruct i as [|i]; simpl in *.
    + injection Hi as ->. now rewrite Hx.
    + rewrite (Hbefore 0%nat a); [|lia|reflexivity].
      apply (IH i); [assumption|assumption|].
      intros j y Hj Hy. apply (Hbefore (S j) y); [lia|exact Hy].
Qed.

Lemma income_slab_applies_in_range (g : number) (slab : IncomeSlab.t) :
  income_slab_applies g slab = true <->
  Design.in_range (IncomeSlab.min slab) (IncomeSlab.max slab) g.
Proof.
  unfold income_slab_applies, Design.in_range, ge.
  rewrite andb_true_iff. reflexivity.
Qed.

Lemma tax_slab_applies_in_range (g : number) (slab : TaxSlab.t) :
  tax_slab_applies g slab = true <->
  Design.in_range (TaxSlab.min slab) (TaxSlab.max slab) g.
Proof.
  unfold tax_slab_applies, Design.in_range, ge.
  rewrite andb_true_iff. reflexivity.
Qed.

(** What a call that returns has gone through. *)
Lemma calculateNetPay_inv (TAX_RULES : TaxRules.t) (employee : Employee.t)
    (r : NetPayResult.t) :
  calculateNetPay TAX_RULES (Some employee) = Return r ->
  exists professional_tax slabs table,
    TaxRules.professional_tax TAX_RULES = Some professional_tax
    /\ TaxRules.income_tax_slabs TAX_RULES = Some slabs
    /\ locationRules professional_tax (Employee.location employee) = Some table
    /\ NetPayResult.employee_id r = Employee.employee_id employee
    /\ NetPayResult.gross_pay r =
         add (to_number (Employee.salary employee))
             (to_number (Employee.bonus employee))
    /\ calculateIncomeTax (NetPayResult.gross_pay r) (Some slabs) =
         Return (Breakdown.company_tax (NetPayResult.breakdown r))
    /\ Breakdown.social_security (NetPayResult.breakdown r) =
         mul (NetPayResult.gross_pay r)
             (to_number (TaxRules.social_security_percent TAX_RULES))
    /\ calculateSlabTax (NetPayResult.gross_pay r) (Some table) =
         Return (Breakdown.professional_tax (NetPayResult.breakdown r))
    /\ Breakdown.personal_deductions (NetPayResult.breakdown r) =
         Employee.deductions employee
    /\ Breakdown.total_deductions (NetPayResult.breakdown r) =
         add (add (add (Breakdown.company_tax (NetPayResult.breakdown r))
                       (Breakdown.social_security (NetPayResult.breakdown r)))
                  (Breakdown.professional_tax (NetPayResult.breakdown r)))
             (to_number (Employee.deductions employee))
    /\ NetPayResult.net_pay r =
         sub (NetPayResult.gross_pay r)
             (Breakdown.total_deductions (NetPayResult.breakdown r)).
Proof.
  unfold calculateNetPay.
  destruct (TaxRules.professional_tax TAX_RULES) as [pt|]; [|discriminate].
  destruct (TaxRules.income_tax_slabs TAX_RULES) as [slabs|]; [|discriminate].
  destruct (locationRules pt (Employee.location employee)) as [table|] eqn:Et;
    [|discriminate].
  simpl. intros [= <-]. exists pt, slabs, table. simpl.
  repeat split; try reflexivity. exact Et.
Qed.









(** C10.  When several slabs hold the gross pay, both lookups apply the
    one of least index: a slab at index [i] that holds [g], no slab
    before it doing so, gives the income tax its rate and the
    professional tax its amount, whatever follows it in the array. *)
Theorem first_matching_slab_wins (g : number) :
  (forall (slabs : list IncomeSlab.t) (i : nat) (slab : IncomeSlab.t),
      slabs !! i = Some slab ->
      Design.in_range (IncomeSlab.min slab) (IncomeSlab.max slab) g ->
      (forall j earlier,
          (j < i)%nat -> slabs !! j = Some earlier ->
          ~ Design.in_range (IncomeSlab.min earlier)
                            (IncomeSlab.max earlier) g) ->
      calculateIncomeTax g (Some slabs) =
        Return (mul g (IncomeSlab.rate slab)))
  /\ (forall (slabs : list TaxSlab.t) (i : nat) (slab : TaxSlab.t),
         slabs !! i = Some slab ->
         Design.in_range (TaxSlab.min slab) (TaxSlab.max slab) g ->
         (forall j earlier,
             (j < i)%nat -> slabs !! j = Some earlier ->
             ~ Design.in_range (TaxSlab.min earlier) (TaxSlab.max earlier) g) ->
         calculateSlabTax g (Some slabs) = Return (TaxSlab.tax slab)).
Proof.
  split; intros slabs i slab Hi Hrange Hbefore.
  - unfold calculateIncomeTax.
    rewrite (find_least (income_slab_applies g) slabs i slab Hi).
    + reflexivity.
    + now apply income_slab_applies_in_range.
    + intros j y Hj Hy.
      destruct (income_slab_applies g y) eqn:E; [|reflexivity].
      apply income_slab_applies_in_range in E.
      destruct (Hbefore j y Hj Hy E).
  - unfold calculateSlabTax.
    rewrite (find_least (tax_slab_applies g) slabs i slab Hi).
    + reflexivity.
    + now apply tax_slab_applies_in_range.
    + intros j y Hj Hy.
      destruct (tax_slab_applies g y) eqn:E; [|reflexivity].
      apply tax_slab_applies_in_range in E.
      destruct (Hbefore j y Hj Hy E).
Qed.

(** A gross pay of 10000 lies in the slab ending at 10000 and in the one
    starting there; the slab listed first is applied, in either order. *)
Lemma first_matching_slab_wins_witness :
  let g := of_Z 10000 in
  Design.in_range (IncomeSlab.min Scenario.high_income)
                  (IncomeSlab.max Scenario.high_income) g
  /\ calculateIncomeTax g
       (Some [Scenario.low_income; Scenario.high_income]) =
       Return (of_Z 1000)
  /\ calculateIncomeTax g
       (Some [Scenario.high_income; Scenario.low_income]) =
       Return (of_Z 2000)
  /\ calculateSlabTax g (Some [Scenario.low_flat; Scenario.high_flat]) =
       Return (of_Z 175)
  /\ calculateSlabTax g (Some [Scenario.high_flat; Scenario.low_flat]) =
       Return (of_Z 200).
Proof.
  intros g.
  split; [split; reflexivity|].
  split; [|split; [|split]].
  - apply (proj1 (first_matching_slab_wins g)
                 [Scenario.low_income; Scenario.high_income] 0%nat
                 Scenario.low_income).
    + reflexivity.
    + split; reflexivity.
    + intros j earlier Hj. lia.
  - apply (proj1 (first_matching_slab_wins g)
                 [Scenario.high_income; Scenario.low_income] 0%nat
                 Scenario.high_income).
    + reflexivity.
    + split; reflexivity.
    + intros j earlier Hj. lia.
  - apply (proj2 (first_matching_slab_wins g)
                 [Scenario.low_flat; Scenario.high_flat] 0%nat
                 Scenario.low_flat).
    + reflexivity.
    + split; reflexivity.
    + intros j earlier Hj. lia.
  - apply (proj2 (first_matching_slab_wins g)
                 [Scenario.high_flat; Scenario.low_flat] 0%nat
                 Scenario.high_flat).
    + reflexivity.
    + split; reflexivity.
    + intros j earlier Hj. lia.
Defined.







End NetPay.

(** ** The detection strategies *)

Section Strategies.
Import JSNumber AnomalyDetector.
Local Open Scope list_scope.

Lemma strict_eq_string (a b : string) : strict_eq a b = String.eqb a b.
Proof.
  unfold strict_eq. destruct (String.eqb_spec a b) as [->|Hne].
  - now rewrite bool_decide_eq_true_2.
  - now rewrite bool_decide_eq_false_2.
Qed.

Lemma strict_eq_location (a b : option string) :
  strict_eq a b =
  match a, b with
  | Some a, Some b => String.eqb a b
  | None, None => true
  | _, _ => false
  end.
Proof.
  unfold strict_eq. destruct a as [a|], b as [b|]; try reflexivity.
  destruct (String.eqb_spec a b) as [->|Hne].
  - now rewrite bool_decide_eq_true_2.
  - rewrite bool_decide_eq_false_2; [reflexivity|congruence].
Qed.

Lemma fold_left_add_map {A : Type} (f : A -> number) (l : list A)
    (acc : number) :
  fold_left (fun acc x => add acc (f x)) l acc = fold_left add (map f l) acc.
Proof.
  revert acc. induction l as [|x l IH]; intros acc; simpl;
    [reflexivity|apply IH].
Qed.

(** The records the strategy keeps are the matching records of the
    design. *)
Lemma employeeHistory_matching (employee : Employee.t)
    (historyDB : list HistoryRecord.t) :
  List.filter
    (fun h => strict_eq (HistoryRecord.employee_id h)
                        (Employee.employee_id employee))
    historyDB
  = Design.matching_history employee historyDB.
Proof.
  unfold Design.matching_history. apply filter_ext.
  intros h. apply strict_eq_string.
Qed.

(** The strategy, in the terms of the design. *)
Lemma detectHistoricalVariance_eq (employee : Employee.t)
    (proposedPay : NetPayResult.t) (historyDB : list HistoryRecord.t) :
  detectHistoricalVariance employee proposedPay historyDB =
  let avg := Design.history_average employee historyDB in
  let current := NetPayResult.net_pay proposedPay in
  let pc := Design.percent_change current avg in
  if (length (Design.matching_history employee historyDB) <? 3)%nat then []
  else if gt (abs pc) lit_0_5 then
    [ {| Flag.level := ANOMALY;
         Flag.reason :=
           NetPayJump (round (mul pc lit_100)) (round avg) (round current) |} ]
  else if gt (abs pc) lit_0_2 then
    [ {| Flag.level := REVIEW;
         Flag.reason :=
           NetPayChange (round (mul pc lit_100)) (round avg)
                        (round current) |} ]
  else [].
Proof.
  unfold detectHistoricalVariance, Design.history_average, Design.mean,
    Design.sum, Design.percent_change.
  rewrite employeeHistory_matching, fold_left_add_map, length_map.
  reflexivity.
Qed.



(** C4, as the design document has it, fails: three matching records
    with net pay 0 give a mean of 0, and against a proposed net pay of
    65000 the strategy returns an ANOMALY flag, whose percentage is
    infinite. *)
Lemma zero_average_not_suppressed :
  (3 <= length (Design.matching_history Scenario.asha Scenario.zero_history))%nat
  /\ Design.history_average Scenario.asha Scenario.zero_history = zero
  /\ detectHistoricalVariance Scenario.asha
       (Scenario.pay "e101" (of_Z 65000)) Scenario.zero_history
     = [ {| Flag.level := ANOMALY;
            Flag.reason := NetPayJump PInf (of_Z 0) (of_Z 65000) |} ]
  /\ detectHistoricalVariance Scenario.asha
       (Scenario.pay "e101" (of_Z 65000)) Scenario.zero_history <> [].
Proof.
  split; [simpl; lia|]. split; [reflexivity|]. split; [reflexivity|].
  discriminate.
Qed.

(** Dividing by a zero average: an infinity unless the numerator is zero
    or [NaN]. *)
Lemma percent_change_zero_average (current avg : number) :
  eqb avg zero = true ->
  abs (Design.percent_change current avg) =
    if is_nan current || eqb current zero then NaN else PInf.
Proof.
  unfold Design.percent_change, sub.
  destruct avg as [q| | |]; simpl; try discriminate.
  intros Hq. pose proof Hq as Hq0. apply Qeq_bool_iff in Hq0.
  destruct current as [a| | |]; simpl; change (inject_Z 0) with 0%Q in *.
  - rewrite Hq. unfold signed_inf.
    assert (Qred (a + Qred (- q)) == a)%Q as Hx.
    { rewrite Qred_correct, Qred_correct, Hq0. ring. }
    rewrite Hx.
    destruct (Qeq_bool a 0) eqn:Ea.
    + apply Qeq_bool_iff in Ea. apply Qeq_alt in Ea. now rewrite Ea.
    + destruct (Qcompare_spec a 0) as [H0|H0|H0]; try reflexivity.
      apply Qeq_bool_iff in H0. congruence.
  - apply Qeq_alt in Hq0. now rewrite Hq0.
  - apply Qeq_alt in Hq0. now rewrite Hq0.
  - reflexivity.
Qed.

(** C4, amended.  With at least three matching records whose taken
    records have a mean net pay of 0, nothing guards the division: the
    historical-variance strategy returns exactly one ANOMALY flag when the
    proposed net pay is a number other than 0 (the ratio is infinite), and
    no flag when the proposed net pay is 0 or [NaN] (the ratio is
    [NaN]). *)
Theorem detectHistoricalVariance_zero_average (employee : Employee.t)
    (proposedPay : NetPayResult.t) (historyDB : list HistoryRecord.t) :
  (3 <= length (Design.matching_history employee historyDB))%nat ->
  eqb (Design.history_average employee historyDB) zero = true ->
  let current := NetPayResult.net_pay proposedPay in
  let flags := detectHistoricalVariance employee proposedPay historyDB in
  (is_nan current = false /\ eqb current zero = false ->
   Design.one_flag ANOMALY flags)
  /\ (is_nan current = true \/ eqb current zero = true -> flags = []).
Proof.
  intros Hlong Hzero current flags. subst flags.
  rewrite detectHistoricalVariance_eq. cbv zeta.
  apply Nat.ltb_ge in Hlong. rewrite Hlong.
  rewrite (percent_change_zero_average _ _ Hzero). fold current.
  split.
  - intros [-> ->]. simpl. eexists. reflexivity.
  - intros Hor.
    assert (is_nan current || eqb current zero = true) as ->.
    { apply orb_true_iff. exact Hor. }
    reflexivity.
Qed.

(** A history summing to 0 against a proposed net pay of 65000, and
    against a proposed net pay of 0. *)
Lemma detectHistoricalVariance_zero_average_witness :
  Design.one_flag ANOMALY
    (detectHistoricalVariance Scenario.asha
       (Scenario.pay "e101" (of_Z 65000)) Scenario.zero_history)
  /\ detectHistoricalVariance Scenario.asha
       (Scenario.pay "e101" (of_Z 0)) Scenario.zero_history = [].
Proof.
  split.
  - apply (detectHistoricalVariance_zero_average
             Scenario.asha (Scenario.pay "e101" (of_Z 65000))
             Scenario.zero_history).
    + simpl. lia.
    + reflexivity.
    + split; reflexivity.
  - apply (detectHistoricalVariance_zero_average
             Scenario.asha (Scenario.pay "e101" (of_Z 0))
             Scenario.zero_history).
    + simpl. lia.
    + reflexivity.
    + right. reflexivity.
Defined.

(** The peers the strategy keeps are the peer group of the design. *)
Lemma peerGroup_peer_group (employee : Employee.t)
    (proposedPayroll : list Employee.t) :
  List.filter
    (fun p =>
       strict_eq (Employee.department p) (Employee.department employee)
       && strict_eq (Employee.location p) (Employee.location employee)
       && negb (strict_eq (Employee.employee_id p)
                          (Employee.employee_id employee)))
    proposedPayroll
  = Design.peer_group employee proposedPayroll.
Proof.
  unfold Design.peer_group. apply filter_ext. intros p.
  rewrite !strict_eq_string, strict_eq_location.
  destruct (String.eqb (Employee.employee_id p)
                       (Employee.employee_id employee));
    destruct (String.eqb (Employee.department p)
                         (Employee.department employee));
    destruct (Employee.location p) as [a|],
             (Employee.location employee) as [b|];
    simpl; try reflexivity;
    destruct (String.eqb a b); reflexivity.
Qed.

(** The strategy, in the terms of the design. *)
Lemma detectPeerVariance_eq (employee : Employee.t)
    (proposedPayroll : list Employee.t) :
  detectPeerVariance employee proposedPayroll =
  let avg := Design.peer_average employee proposedPayroll in
  let salary := to_number (Employee.salary employee) in
  match Design.peer_group employee proposedPayroll with
  | [] => []
  | _ :: _ =>
      if gt salary (mul avg lit_3) then
        [ {| Flag.level := ANOMALY;
             Flag.reason :=
               SalaryOver3x (Employee.salary employee) (round avg)
                            (Employee.department employee)
                            (Employee.location employee) |} ]
      else if gt salary (mul avg lit_1_5) then
        [ {| Flag.level := REVIEW;
             Flag.reason :=
               SalaryOver1_5x (Employee.salary employee) (round avg)
                              (Employee.department employee)
                              (Employee.location employee) |} ]
      else []
  end.
Proof.
  unfold detectPeerVariance, Design.peer_average, Design.mean, Design.sum.
  rewrite peerGroup_peer_group, fold_left_add_map, length_map.
  destruct (Design.peer_group employee proposedPayroll); reflexivity.
Qed.



(** Exhibits a flag of the wanted level among the first two of a list. *)
Ltac find_flag :=
  solve [ eexists; split; [left; reflexivity | reflexivity]
        | eexists; split; [right; left; reflexivity | reflexivity] ].

(** C8.  The absolute-rule strategy returns an ANOMALY flag exactly when
    [net_pay < 0] and a REVIEW flag exactly when [bonus > salary * 2];
    neither test looks at the other, the result has at most two flags,
    and there are inputs on which both flags are returned. *)
Theorem detectAbsoluteRules_independent :
  (forall (employee : Employee.t) (proposedPay : NetPayResult.t),
      let flags := detectAbsoluteRules employee proposedPay in
      (Design.has_level ANOMALY flags <->
       lt (NetPayResult.net_pay proposedPay) zero = true)
      /\ (Design.has_level REVIEW flags <->
          gt (to_number (Employee.bonus employee))
             (mul (to_number (Employee.salary employee)) lit_2) = true)
      /\ (length flags <= 2)%nat)
  /\ (exists (employee : Employee.t) (proposedPay : NetPayResult.t),
         NetPayCalculator.calculateNetPay Scenario.rules (Some employee) =
           Return proposedPay
         /\ Design.has_level ANOMALY
              (detectAbsoluteRules employee proposedPay)
         /\ Design.has_level REVIEW
              (detectAbsoluteRules employee proposedPay)
         /\ length (detectAbsoluteRules employee proposedPay) = 2%nat).
Proof.
  split.
  - intros employee proposedPay flags. subst flags.
    unfold detectAbsoluteRules.
    destruct (lt (NetPayResult.net_pay proposedPay) zero);
      destruct (gt (to_number (Employee.bonus employee))
                   (mul (to_number (Employee.salary employee)) lit_2));
      simpl; (split; [|split; [|lia]]); split;
      first [ intros (flag & Hin & Hlevel); simpl in Hin;
              decompose sum Hin; subst; simpl in *;
              first [reflexivity | discriminate | contradiction]
            | intros Hfires; first [discriminate Hfires | find_flag] ].
  - exists Scenario.windfall. eexists.
    split; [vm_compute; reflexivity|].
    split; [find_flag|]. split; [find_flag|reflexivity].
Qed.

(** Scenario F of the design document: a net pay of -5880 with a bonus of
    three times the salary gets both flags; the same record with a net
    pay of 100 keeps the REVIEW flag only. *)
Lemma detectAbsoluteRules_independent_witness :
  Design.has_level ANOMALY
    (detectAbsoluteRules Scenario.windfall
                         (Scenario.pay "e104" (of_Z (-5880))))
  /\ Design.has_level REVIEW
       (detectAbsoluteRules Scenario.windfall
                            (Scenario.pay "e104" (of_Z (-5880))))
  /\ ~ Design.has_level ANOMALY
        (detectAbsoluteRules Scenario.windfall
                             (Scenario.pay "e104" (of_Z 100)))
  /\ Design.has_level REVIEW
       (detectAbsoluteRules Scenario.windfall
                            (Scenario.pay "e104" (of_Z 100))).
Proof.
  destruct (proj1 detectAbsoluteRules_independent Scenario.windfall
                  (Scenario.pay "e104" (of_Z (-5880))))
    as (Hanomaly & Hreview & _).
  destruct (proj1 detectAbsoluteRules_independent Scenario.windfall
                  (Scenario.pay "e104" (of_Z 100)))
    as (Hanomaly' & Hreview' & _).
  split; [apply Hanomaly; reflexivity|].
  split; [apply Hreview; reflexivity|].
  split; [|apply Hreview'; reflexivity].
  intros H. apply Hanomaly' in H. discriminate H.
Defined.

End Strategies.

(** ** The batch report *)

Section BatchReport.
Import JSNumber NetPayCalculator AnomalyDetector.
Local Open Scope list_scope.







End BatchReport.

(** * Further properties of the code *)

(** ** When the calculator returns, and what a [NaN] gross pay does *)

Section CalculatorEdges.
Import JSNumber NetPayCalculator.
Local Open Scope list_scope.

Lemma find_none_applies {A : Type} (f : A -> bool) (l : list A) :
  (forall x, f x = false) -> List.find f l = None.
Proof.
  intros Hf. induction l as [|x l IH]; simpl; [reflexivity|].
  now rewrite Hf.
Qed.

Lemma le_NaN_r (x : number) : le x NaN = false.
Proof. destruct x; reflexivity. Qed.



(** A gross pay that is [NaN] lies in no slab. *)
Lemma NaN_in_no_slab :
  (forall slabs, calculateIncomeTax NaN (Some slabs) = Return zero)
  /\ (forall slabs, calculateSlabTax NaN (Some slabs) = Return zero).
Proof.
  split; intros slabs.
  - unfold calculateIncomeTax. rewrite find_none_applies; [reflexivity|].
    intros slab. unfold income_slab_applies, ge.
    now rewrite le_NaN_r.
  - unfold calculateSlabTax. rewrite find_none_applies; [reflexivity|].
    intros slab. unfold tax_slab_applies, ge.
    now rewrite le_NaN_r.
Qed.

(** A record without [salary] or without [bonus] is charged no company
    tax and no professional tax, whatever the slab tables are, while its
    social security, total deductions and net pay are [NaN]. *)
Theorem missing_pay_component_taxed_zero (TAX_RULES : TaxRules.t)
    (employee : Employee.t) (r : NetPayResult.t) :
  Employee.salary employee = None \/ Employee.bonus employee = None ->
  calculateNetPay TAX_RULES (Some employee) = Return r ->
  Breakdown.company_tax (NetPayResult.breakdown r) = zero
  /\ Breakdown.professional_tax (NetPayResult.breakdown r) = zero
  /\ Breakdown.social_security (NetPayResult.breakdown r) = NaN
  /\ Breakdown.total_deductions (NetPayResult.breakdown r) = NaN
  /\ NetPayResult.net_pay r = NaN.
Proof.
  intros Hmissing Hr.
  destruct (calculateNetPay_inv _ _ _ Hr)
    as (pt & slabs & table & _ & _ & _ & _ & Hg & Hct & Hss & Hptax & _
        & Htd & Hn).
  assert (NetPayResult.gross_pay r = NaN) as HgN.
  { rewrite Hg. destruct Hmissing as [-> | ->]; simpl;
      [reflexivity|apply add_NaN_r]. }
  rewrite HgN in *.
  rewrite (proj1 NaN_in_no_slab) in Hct. injection Hct as Hct.
  rewrite (proj2 NaN_in_no_slab) in Hptax. injection Hptax as Hptax.
  assert (Breakdown.social_security (NetPayResult.breakdown r) = NaN) as HssN
    by (rewrite Hss; reflexivity).
  assert (Breakdown.total_deductions (NetPayResult.breakdown r) = NaN) as HtdN
    by (rewrite Htd, HssN, add_NaN_r; reflexivity).
  repeat split; try congruence. rewrite Hn. reflexivity.
Qed.

(** The record without [salary], on the rule table of the scenarios. *)
Lemma missing_pay_component_taxed_zero_witness :
  exists r,
    calculateNetPay Scenario.rules (Some Scenario.unpaid) = Return r
    /\ Breakdown.company_tax (NetPayResult.breakdown r) = zero
    /\ Breakdown.professional_tax (NetPayResult.breakdown r) = zero
    /\ NetPayResult.net_pay r = NaN.
Proof.
  destruct (calculateNetPay Scenario.rules (Some Scenario.unpaid))
    as [r|err] eqn:Hr; [|vm_compute in Hr; discriminate].
  exists r. split; [reflexivity|].
  destruct (missing_pay_component_taxed_zero
              Scenario.rules Scenario.unpaid r (or_introl eq_refl) Hr)
    as (Hct & Hpt & _ & _ & Hn).
  auto.
Defined.

End CalculatorEdges.

(** ** What the strategies look at, and what silences them *)

Section StrategyEdges.
Import JSNumber NetPayCalculator AnomalyDetector.
Local Open Scope list_scope.

Lemma filter_all {A : Type} (f : A -> bool) (l : list A) :
  (forall x, In x l -> f x = true) -> List.filter f l = l.
Proof.
  induction l as [|a l IH]; intros Hall; simpl; [reflexivity|].
  rewrite (Hall a (or_introl eq_refl)). f_equal.
  apply IH. intros x Hx. apply Hall. now right.
Qed.

Lemma In_firstn {A : Type} (n : nat) (l : list A) (x : A) :
  In x (firstn n l) -> In x l.
Proof.
  revert l. induction n as [|n IH]; intros [|a l]; simpl; try tauto.
  intros [H|H]; [now left|right; now apply IH].
Qed.

Lemma filter_firstn_filter {A : Type} (f : A -> bool) (n : nat) (l : list A) :
  List.filter f (firstn n (List.filter f l)) = firstn n (List.filter f l).
Proof.
  apply filter_all. intros x Hx. apply In_firstn in Hx.
  now apply filter_In in Hx.
Qed.

Lemma lt_NaN_r (x : number) : lt x NaN = false.
Proof. destruct x; reflexivity. Qed.

Lemma fold_left_add_NaN (l : list number) : fold_left add l NaN = NaN.
Proof. induction l as [|x l IH]; simpl; [reflexivity|exact IH]. Qed.

Lemma sum_with_NaN (l : list number) (acc : number) :
  In NaN l -> fold_left add l acc = NaN.
Proof.
  revert acc. induction l as [|x l IH]; intros acc; simpl; [tauto|].
  intros [->|Hin].
  - rewrite add_NaN_r. apply fold_left_add_NaN.
  - now apply IH.
Qed.

(** The historical-variance strategy reads nothing but the first six
    history records of the employee: the records of other employees and
    the matching records after the sixth have no influence on its
    result. *)
Theorem detectHistoricalVariance_window (employee : Employee.t)
    (proposedPay : NetPayResult.t) (historyDB : list HistoryRecord.t) :
  detectHistoricalVariance employee proposedPay historyDB =
  detectHistoricalVariance employee proposedPay
    (firstn 6 (Design.matching_history employee historyDB)).
Proof.
  rewrite !detectHistoricalVariance_eq. cbv zeta.
  assert (Design.matching_history employee
            (firstn 6 (Design.matching_history employee historyDB))
          = firstn 6 (Design.matching_history employee historyDB)) as Hm
    by apply filter_firstn_filter.
  unfold Design.history_average. rewrite Hm, firstn_firstn.
  change (Nat.min 6 6) with 6%nat.
  assert ((length (firstn 6 (Design.matching_history employee historyDB))
           <? 3)%nat
          = (length (Design.matching_history employee historyDB) <? 3)%nat)
    as ->.
  { rewrite length_firstn.
    destruct (Nat.ltb_spec
                (length (Design.matching_history employee historyDB)) 3)
      as [Hlt|Hge].
    - apply Nat.ltb_lt. lia.
    - apply Nat.ltb_ge. lia. }
  reflexivity.
Qed.

(** The peer-variance strategy reads nothing but the peer group: the
    employee's own record, and the records of other departments or
    locations, have no influence on its result. *)
Theorem detectPeerVariance_peers_only (employee : Employee.t)
    (proposedPayroll : list Employee.t) :
  detectPeerVariance employee proposedPayroll =
  detectPeerVariance employee (Design.peer_group employee proposedPayroll).
Proof.
  rewrite !detectPeerVariance_eq. cbv zeta.
  assert (Design.peer_group employee
            (Design.peer_group employee proposedPayroll)
          = Design.peer_group employee proposedPayroll) as Hp.
  { unfold Design.peer_group at 1. apply filter_all.
    intros p Hp. unfold Design.peer_group in Hp.
    now apply filter_In in Hp. }
  unfold Design.peer_average. rewrite Hp. reflexivity.
Qed.

(** One peer whose record has no [salary] makes the mean peer salary
    [NaN], and the peer-variance strategy then flags nobody of that
    group. *)
Theorem peer_without_salary_silences (employee peer : Employee.t)
    (proposedPayroll : list Employee.t) :
  In peer (Design.peer_group employee proposedPayroll) ->
  Employee.salary peer = None ->
  Design.peer_average employee proposedPayroll = NaN
  /\ detectPeerVariance employee proposedPayroll = [].
Proof.
  intros Hpeer Hsalary.
  assert (Design.peer_average employee proposedPayroll = NaN) as Havg.
  { unfold Design.peer_average, Design.mean, Design.sum.
    rewrite sum_with_NaN; [reflexivity|].
    apply in_map_iff. exists peer. split; [|exact Hpeer].
    now rewrite Hsalary. }
  split; [exact Havg|].
  rewrite detectPeerVariance_eq. cbv zeta. rewrite Havg.
  destruct (Design.peer_group employee proposedPayroll); [reflexivity|].
  unfold gt. cbn [mul lt]. reflexivity.
Qed.

(** A colleague of the Mumbai engineers without [salary]: the salary of
    130000, an ANOMALY against peers at 30000 and 50000, is no longer
    flagged. *)
Lemma peer_without_salary_silences_witness :
  let blank :=
    Scenario.person "e203" "Engineering" (Some "Mumbai")
                    None (Some (of_Z 0)) (Some (of_Z 0)) in
  let batch :=
    [ Scenario.peer "e200" 130000; Scenario.peer "e201" 30000;
      Scenario.peer "e202" 50000 ] in
  Design.one_flag ANOMALY (detectPeerVariance (Scenario.peer "e200" 130000)
                                              batch)
  /\ detectPeerVariance (Scenario.peer "e200" 130000) (batch ++ [blank]) = [].
Proof.
  intros blank batch. split; [eexists; reflexivity|].
  apply (peer_without_salary_silences (Scenario.peer "e200" 130000) blank).
  - vm_compute. tauto.
  - reflexivity.
Defined.

(** A record without [salary] is flagged by no strategy: its net pay is
    [NaN], which is neither negative nor any percentage away from the
    history, and its absent salary is above no peer average and makes no
    bonus excessive. *)
Theorem missing_salary_never_flagged (TAX_RULES : TaxRules.t)
    (historyDB : list HistoryRecord.t) (proposedPayroll : list Employee.t)
    (employee : Employee.t) (proposedPay : NetPayResult.t) :
  Employee.salary employee = None ->
  calculateNetPay TAX_RULES (Some employee) = Return proposedPay ->
  detectHistoricalVariance employee proposedPay historyDB = []
  /\ detectPeerVariance employee proposedPayroll = []
  /\ detectAbsoluteRules employee proposedPay = [].
Proof.
  intros Hsalary Hpay.
  destruct (calculateNetPay_inv _ _ _ Hpay)
    as (_ & _ & _ & _ & _ & _ & _ & Hg & _ & _ & _ & _ & _ & Hn).
  rewrite Hsalary in Hg. cbn in Hg. rewrite Hg in Hn. cbn in Hn.
  split; [|split].
  - rewrite detectHistoricalVariance_eq. cbv zeta. rewrite Hn.
    destruct (length (Design.matching_history employee historyDB) <? 3)%nat;
      reflexivity.
  - rewrite detectPeerVariance_eq. cbv zeta. rewrite Hsalary.
    destruct (Design.peer_group employee proposedPayroll); [reflexivity|].
    unfold gt. cbn [to_number]. now rewrite !lt_NaN_r.
  - unfold detectAbsoluteRules, gt. rewrite Hn, Hsalary.
    cbn [to_number mul lt]. reflexivity.
Qed.

(** The record without [salary] among the Mumbai engineers and a history
    of its own. *)
Lemma missing_salary_never_flagged_witness :
  exists proposedPay,
    calculateNetPay Scenario.rules (Some Scenario.unpaid) = Return proposedPay
    /\ employee_flags [ Scenario.past "e103" "2025-10" 50000;
                        Scenario.past "e103" "2025-09" 50000;
                        Scenario.past "e103" "2025-08" 50000 ]
                      [ Scenario.unpaid; Scenario.windfall ]
                      Scenario.unpaid proposedPay = [].
Proof.
  destruct (calculateNetPay Scenario.rules (Some Scenario.unpaid))
    as [pay|err] eqn:Hpay; [|vm_compute in Hpay; discriminate].
  exists pay. split; [reflexivity|].
  unfold employee_flags.
  destruct (missing_salary_never_flagged
              Scenario.rules
              [ Scenario.past "e103" "2025-10" 50000;
                Scenario.past "e103" "2025-09" 50000;
                Scenario.past "e103" "2025-08" 50000 ]
              [ Scenario.unpaid; Scenario.windfall ]
              Scenario.unpaid pay eq_refl Hpay) as (-> & -> & ->).
  reflexivity.
Defined.

End StrategyEdges.

(** ** The shape of the report, and when there is none *)

Section ReportShape.
Import JSNumber NetPayCalculator AnomalyDetector.
Local Open Scope list_scope.

(** The loop appends, in the order of the batch, what each turn pushes. *)
Lemma detectAnomalies_loop_pushed (TAX_RULES : TaxRules.t)
    (historyDB : list HistoryRecord.t) (batch todo : list Employee.t)
    (allFlags out : list ReportEntry.t) :
  detectAnomalies_loop TAX_RULES historyDB batch todo allFlags = Return out ->
  out = allFlags ++ flat_map (Reporting.pushed TAX_RULES historyDB batch) todo.
Proof.
  revert allFlags.
  induction todo as [|e todo IH]; intros allFlags; cbn [detectAnomalies_loop].
  - intros [= <-]. cbn. now rewrite app_nil_r.
  - cbn [flat_map]. unfold Reporting.pushed at 1.
    destruct (calculateNetPay TAX_RULES (Some e)) as [pay|err];
      cbn [bind]; [|discriminate].
    intros Hloop. rewrite (IH _ Hloop). cbv zeta.
    destruct (0 <? length (employee_flags historyDB batch e pay))%nat;
      [now rewrite <- app_assoc|reflexivity].
Qed.

(** The loop stops at the first employee whose net pay cannot be
    calculated, with the exception of that calculation. *)
Lemma detectAnomalies_loop_throws (TAX_RULES : TaxRules.t)
    (historyDB : list HistoryRecord.t) (batch todo : list Employee.t)
    (allFlags : list ReportEntry.t) (err : exn) :
  detectAnomalies_loop TAX_RULES historyDB batch todo allFlags = Throw err <->
  exists before employee after,
    todo = before ++ employee :: after
    /\ Forall (fun e => returns (calculateNetPay TAX_RULES (Some e))) before
    /\ calculateNetPay TAX_RULES (Some employee) = Throw err.
Proof.
  revert allFlags.
  induction todo as [|e todo IH]; intros allFlags; cbn [detectAnomalies_loop].
  - split; [discriminate|].
    intros (before & x & after & Heq & _). now destruct before.
  - destruct (calculateNetPay TAX_RULES (Some e)) as [pay|err'] eqn:Hpay;
      cbn [bind].
    + rewrite IH. split.
      * intros (before & x & after & -> & Hall & Hx).
        exists (e :: before), x, after. split; [reflexivity|].
        split; [|exact Hx]. constructor; [eexists; exact Hpay|exact Hall].
      * intros (before & x & after & Heq & Hall & Hx).
        destruct before as [|b before]; cbn in Heq; injection Heq as <- ->.
        -- rewrite Hpay in Hx. discriminate.
        -- exists before, x, after. split; [reflexivity|].
           split; [now inversion Hall|exact Hx].
    + split.
      * intros [= <-]. exists [], e, todo. auto.
      * intros (before & x & after & Heq & Hall & Hx).
        destruct before as [|b before]; cbn in Heq; injection Heq as <- ->.
        -- rewrite Hpay in Hx. now injection Hx as ->.
        -- inversion Hall as [|? ? [r Hr] _]; subst.
           rewrite Hpay in Hr. discriminate.
Qed.

Lemma strategies_at_most_four (historyDB : list HistoryRecord.t)
    (batch : list Employee.t) (employee : Employee.t)
    (proposedPay : NetPayResult.t) :
  (length (employee_flags historyDB batch employee proposedPay) <= 4)%nat.
Proof.
  unfold employee_flags. rewrite !length_app.
  rewrite detectHistoricalVariance_eq, detectPeerVariance_eq. cbv zeta.
  unfold detectAbsoluteRules.
  destruct (length (Design.matching_history employee historyDB) <? 3)%nat;
    repeat match goal with
           | |- context [if ?c then _ else _] => destruct c
           | |- context [match ?l with [] => _ | _ :: _ => _ end] =>
               destruct l
           end; cbn; lia.
Qed.

Lemma detectAnomalies_report_pushed (TAX_RULES : TaxRules.t)
    (historyDB : list HistoryRecord.t) (current_period : string)
    (batch : list Employee.t) (report : Report.t) :
  detectAnomalies TAX_RULES historyDB current_period batch = Return report ->
  Report.report report =
    flat_map (Reporting.pushed TAX_RULES historyDB batch) batch.
Proof.
  unfold detectAnomalies.
  destruct (detectAnomalies_loop TAX_RULES historyDB batch batch [])
    as [out|err] eqn:Hloop; cbn [bind]; [|discriminate].
  intros [= <-]. cbn.
  exact (detectAnomalies_loop_pushed _ _ _ _ _ _ Hloop).
Qed.

(** The report of a batch lists, in the order of the batch, one entry
    for each member the strategies emit something for, with the
    member's id and name and all its flags; it carries the period it
    was given. *)
Theorem detectAnomalies_report_in_batch_order (TAX_RULES : TaxRules.t)
    (historyDB : list HistoryRecord.t) (current_period : string)
    (batch : list Employee.t) (report : Report.t) :
  detectAnomalies TAX_RULES historyDB current_period batch = Return report ->
  Report.pay_period report = current_period
  /\ Report.report report =
       flat_map (Reporting.pushed TAX_RULES historyDB batch) batch.
Proof.
  unfold detectAnomalies.
  destruct (detectAnomalies_loop TAX_RULES historyDB batch batch [])
    as [out|err] eqn:Hloop; cbn [bind]; [|discriminate].
  intros [= <-]. cbn. split; [reflexivity|].
  exact (detectAnomalies_loop_pushed _ _ _ _ _ _ Hloop).
Qed.

(** Three members, the second of which gets no flag: the report has the
    first and the third, in that order. *)
Lemma detectAnomalies_report_in_batch_order_witness :
  exists report,
    detectAnomalies Scenario.rules Scenario.steady_history "2025-11"
      [Scenario.windfall; Scenario.peer "e300" 40000; Scenario.asha]
    = Return report
    /\ map ReportEntry.employee_id (Report.report report) = ["e104"; "e101"]
    /\ Report.pay_period report = "2025-11".
Proof.
  destruct (detectAnomalies Scenario.rules Scenario.steady_history "2025-11"
              [Scenario.windfall; Scenario.peer "e300" 40000; Scenario.asha])
    as [report|err] eqn:Hr; [|vm_compute in Hr; discriminate].
  exists report. split; [reflexivity|].
  destruct (detectAnomalies_report_in_batch_order _ _ _ _ _ Hr) as [-> ->].
  split; reflexivity.
Defined.

(** In a report every entry has between one and four flags, there are
    no more entries than members of the batch, and the status is CLEAN
    exactly when there is no entry. *)
Theorem detectAnomalies_report_bounds (TAX_RULES : TaxRules.t)
    (historyDB : list HistoryRecord.t) (current_period : string)
    (batch : list Employee.t) (report : Report.t) :
  detectAnomalies TAX_RULES historyDB current_period batch = Return report ->
  Forall (fun entry =>
            (1 <= length (ReportEntry.flags entry) <= 4)%nat)
         (Report.report report)
  /\ (length (Report.report report) <= length batch)%nat
  /\ (Report.status report = CLEAN <-> Report.report report = []).
Proof.
  intros Hr.
  pose proof (detectAnomalies_report_pushed _ _ _ _ _ Hr) as Hrep.
  split; [|split].
  - rewrite Hrep. apply List.Forall_forall. intros entry Hin.
    apply in_flat_map in Hin as (e & _ & Hin).
    unfold Reporting.pushed in Hin.
    destruct (calculateNetPay TAX_RULES (Some e)) as [pay|err]; [|destruct Hin].
    cbv zeta in Hin.
    destruct (0 <? length (employee_flags historyDB batch e pay))%nat eqn:Hne;
      [|destruct Hin].
    destruct Hin as [<-|[]]. cbn [ReportEntry.flags].
    apply Nat.ltb_lt in Hne.
    pose proof (strategies_at_most_four historyDB batch e pay). lia.
  - rewrite Hrep. clear Hrep Hr.
    assert (forall l : list Employee.t,
               (length (flat_map (Reporting.pushed TAX_RULES historyDB batch) l)
                <= length l)%nat) as Hlen.
    { induction l as [|e l IH]; cbn [flat_map]; [cbn; lia|].
      rewrite length_app. cbn [length].
      assert (length (Reporting.pushed TAX_RULES historyDB batch e) <= 1)%nat.
      { unfold Reporting.pushed.
        destruct (calculateNetPay TAX_RULES (Some e)); cbv zeta; [|cbn; lia].
        destruct (0 <? _)%nat; cbn; lia. }
      lia. }
    apply Hlen.
  - unfold detectAnomalies in Hr.
    destruct (detectAnomalies_loop TAX_RULES historyDB batch batch [])
      as [out|err]; cbn [bind] in Hr; [|discriminate].
    injection Hr as <-. cbn [Report.status Report.report].
    destruct out as [|entry out].
    + cbn. tauto.
    + cbn [length Nat.ltb Nat.leb].
      destruct (existsb _ (entry :: out)); split; discriminate.
Qed.

(** A batch of one, reported once with two flags. *)
Lemma detectAnomalies_report_bounds_witness :
  exists report,
    detectAnomalies Scenario.rules [] "2025-11" [Scenario.windfall]
    = Return report
    /\ map (fun entry => length (ReportEntry.flags entry))
           (Report.report report) = [2%nat]
    /\ Report.status report <> CLEAN.
Proof.
  destruct (detectAnomalies Scenario.rules [] "2025-11" [Scenario.windfall])
    as [report|err] eqn:Hr; [|vm_compute in Hr; discriminate].
  exists report. split; [reflexivity|].
  destruct (detectAnomalies_report_bounds _ _ _ _ _ Hr) as (_ & _ & Hclean).
  assert (map (fun entry => length (ReportEntry.flags entry))
              (Report.report report) = [2%nat]) as Hlen
    by (vm_compute in Hr; injection Hr as <-; reflexivity).
  split; [exact Hlen|].
  intros Hs. apply Hclean in Hs. rewrite Hs in Hlen. discriminate.
Defined.

(** [detectAnomalies] fails exactly when the net pay of some member of
    the batch cannot be calculated, and then with the exception of the
    first such member; no report is produced for the members before
    it. *)
Theorem detectAnomalies_first_failure (TAX_RULES : TaxRules.t)
    (historyDB : list HistoryRecord.t) (current_period : string)
    (batch : list Employee.t) (err : exn) :
  detectAnomalies TAX_RULES historyDB current_period batch = Throw err <->
  exists before employee after,
    batch = before ++ employee :: after
    /\ Forall (fun e => returns (calculateNetPay TAX_RULES (Some e))) before
    /\ calculateNetPay TAX_RULES (Some employee) = Throw err.
Proof.
  rewrite <- (detectAnomalies_loop_throws TAX_RULES historyDB batch batch []).
  unfold detectAnomalies.
  destruct (detectAnomalies_loop TAX_RULES historyDB batch batch [])
    as [out|err']; cbn [bind]; split; intros H;
    first [discriminate H | now injection H as ->].
Qed.

(** Without rule table a batch with a member fails with the error of the
    calculator, and the empty batch is reported CLEAN. *)
Lemma detectAnomalies_first_failure_witness :
  detectAnomalies TaxRules.not_loaded Scenario.steady_history "2025-11"
                  [Scenario.asha; Scenario.windfall]
  = Throw (Error "Tax rules are not loaded.")
  /\ detectAnomalies TaxRules.not_loaded Scenario.steady_history "2025-11" []
     = Return {| Report.pay_period := "2025-11";
                 Report.status := CLEAN;
                 Report.report := [] |}.
Proof.
  split; [|reflexivity].
  apply detectAnomalies_first_failure.
  exists [], Scenario.asha, [Scenario.windfall].
  split; [reflexivity|]. split; [constructor|reflexivity].
Defined.

End ReportShape.

(** ** The payroll records API *)

Section PayrollApi.
Import JSNumber JSValue Http PayrollRoutes.
Local Open Scope list_scope.

Lemma blank_not_empty (s : string) : blank s = false -> s <> "".
Proof. intros H ->. discriminate H. Qed.

Lemma not_a_name_false (v : value) :
  not_a_name v = false <-> exists s, v = Str s /\ blank s = false.
Proof.
  unfold not_a_name. split.
  - destruct v as [| | b|n|s|]; cbn; try (destruct b); try discriminate.
    + destruct (eqb n zero || is_nan n); discriminate.
    + intros H. apply orb_false_iff in H as [_ H]. eauto.
  - intros (s & -> & Hs). cbn. rewrite Hs, orb_false_r, orb_false_r.
    destruct (String.eqb_spec s "") as [->|]; [discriminate Hs|reflexivity].
Qed.

Lemma not_an_amount_false (v : value) :
  not_an_amount v = false <-> exists n, v = Num n /\ lt n zero = false.
Proof.
  unfold not_an_amount. split.
  - destruct v as [| | b|n|s|]; cbn; try discriminate. eauto.
  - intros (n & -> & Hn). cbn. exact Hn.
Qed.

(** What an accepted body holds. *)
Lemma validatePayroll_valid_fields (requestBody : PayrollBody.t) :
  validatePayroll requestBody = Valid ->
  exists id name department salary bonus deductions,
    requestBody =
      {| PayrollBody.employee_id := Str id;
         PayrollBody.name := Str name;
         PayrollBody.department := Str department;
         PayrollBody.salary := Num salary;
         PayrollBody.bonus := Num bonus;
         PayrollBody.deductions := Num deductions |}
    /\ blank id = false /\ blank name = false /\ blank department = false
    /\ lt salary zero = false /\ lt bonus zero = false
    /\ lt deductions zero = false.
Proof.
  unfold validatePayroll. cbv zeta.
  destruct (not_a_name (PayrollBody.employee_id requestBody)) eqn:H1;
    [discriminate|].
  destruct (not_a_name (PayrollBody.name requestBody)) eqn:H2;
    [discriminate|].
  destruct (not_a_name (PayrollBody.department requestBody)) eqn:H3;
    [discriminate|].
  destruct (not_an_amount (PayrollBody.salary requestBody)) eqn:H4;
    [discriminate|].
  destruct (not_an_amount (PayrollBody.bonus requestBody)) eqn:H5;
    [discriminate|].
  destruct (not_an_amount (PayrollBody.deductions requestBody)) eqn:H6;
    [discriminate|].
  intros _.
  apply not_a_name_false in H1 as (id & E1 & B1).
  apply not_a_name_false in H2 as (name & E2 & B2).
  apply not_a_name_false in H3 as (department & E3 & B3).
  apply not_an_amount_false in H4 as (salary & E4 & B4).
  apply not_an_amount_false in H5 as (bonus & E5 & B5).
  apply not_an_amount_false in H6 as (deductions & E6 & B6).
  exists id, name, department, salary, bonus, deductions.
  split; [|auto 10].
  destruct requestBody; cbn in *. congruence.
Qed.

(** [validatePayroll] accepts a body exactly when [employee_id], [name]
    and [department] are strings with a character that is not white
    space, and [salary], [bonus] and [deductions] are numbers that are
    not below zero; [NaN] and [Infinity], which are not below zero, pass. *)
Theorem validatePayroll_accepts_iff (requestBody : PayrollBody.t) :
  validatePayroll requestBody = Valid <->
  exists id name department salary bonus deductions,
    requestBody =
      {| PayrollBody.employee_id := Str id;
         PayrollBody.name := Str name;
         PayrollBody.department := Str department;
         PayrollBody.salary := Num salary;
         PayrollBody.bonus := Num bonus;
         PayrollBody.deductions := Num deductions |}
    /\ blank id = false /\ blank name = false /\ blank department = false
    /\ lt salary zero = false /\ lt bonus zero = false
    /\ lt deductions zero = false.
Proof.
  split; [apply validatePayroll_valid_fields|].
  intros (id & name & department & salary & bonus & deductions & ->
          & B1 & B2 & B3 & B4 & B5 & B6).
  unfold validatePayroll. cbv zeta.
  cbn [PayrollBody.employee_id PayrollBody.name PayrollBody.department
       PayrollBody.salary PayrollBody.bonus PayrollBody.deductions].
  rewrite (proj2 (not_a_name_false (Str id))) by eauto.
  rewrite (proj2 (not_a_name_false (Str name))) by eauto.
  rewrite (proj2 (not_a_name_false (Str department))) by eauto.
  rewrite (proj2 (not_an_amount_false (Num salary))) by eauto.
  rewrite (proj2 (not_an_amount_false (Num bonus))) by eauto.
  rewrite (proj2 (not_an_amount_false (Num deductions))) by eauto.
  reflexivity.
Qed.

(** A salary of [Infinity] is accepted; a name of white space is not. *)
Lemma validatePayroll_accepts_iff_witness :
  validatePayroll Requests.unbounded = Valid
  /\ validatePayroll Requests.nameless <> Valid.
Proof.
  split.
  - apply validatePayroll_accepts_iff.
    exists "e400", "Noor", "Sales", PInf, (of_Z 0), (of_Z 0).
    repeat split; reflexivity.
  - intros H. apply validatePayroll_accepts_iff in H
      as (id & name & department & salary & bonus & deductions & Hbody
          & _ & Hname & _).
    injection Hbody as _ <- _ _ _ _. discriminate Hname.
Defined.

(** *** Array lookups *)

Lemma find_app {A : Type} (f : A -> bool) (l l' : list A) :
  List.find f (l ++ l') =
  match List.find f l with
  | Some x => Some x
  | None => List.find f l'
  end.
Proof.
  induction l as [|a l IH]; cbn; [reflexivity|].
  destruct (f a); [reflexivity|exact IH].
Qed.

Lemma findIndex_Some {A : Type} (f : A -> bool) (l : list A) (i : nat) :
  findIndex f l = Some i ->
  exists x,
    l !! i = Some x /\ f x = true
    /\ forall j y, (j < i)%nat -> l !! j = Some y -> f y = false.
Proof.
  revert i. induction l as [|a l IH]; intros i; cbn; [discriminate|].
  destruct (f a) eqn:Ha.
  - intros [= <-]. exists a. repeat split; [exact Ha|]. intros j y Hj. lia.
  - destruct (findIndex f l) as [k|]; cbn; [|discriminate].
    intros [= <-]. destruct (IH k eq_refl) as (x & Hx & Hfx & Hbefore).
    exists x. split; [exact Hx|]. split; [exact Hfx|].
    intros [|j] y Hj Hy; cbn in Hy.
    + now injection Hy as <-.
    + apply (Hbefore j y); [lia|exact Hy].
Qed.

Lemma findIndex_None {A : Type} (f : A -> bool) (l : list A) :
  findIndex f l = None -> List.find f l = None.
Proof.
  induction l as [|a l IH]; cbn; [reflexivity|].
  destruct (f a); [discriminate|].
  destruct (findIndex f l); cbn; [discriminate|]. intros _. now apply IH.
Qed.

Lemma find_insert_other {A : Type} (f : A -> bool) (l : list A) (i : nat)
    (old new : A) :
  l !! i = Some old -> f old = false -> f new = false ->
  List.find f (<[i:=new]> l) = List.find f l.
Proof.
  revert i. induction l as [|a l IH]; intros [|i]; cbn; try discriminate.
  - intros [= ->] -> ->. reflexivity.
  - intros Hi Hold Hnew. destruct (f a); [reflexivity|].
    now apply (IH i).
Qed.


Lemma map_insert_same {A B : Type} (g : A -> B) (l : list A) (i : nat)
    (old new : A) :
  l !! i = Some old -> g new = g old -> map g (<[i:=new]> l) = map g l.
Proof.
  revert i. induction l as [|a l IH]; intros [|i]; cbn; try discriminate.
  - intros [= ->] ->. reflexivity.
  - intros Hi Hg. f_equal. now apply (IH i).
Qed.


Lemma find_id_None (db : list Employee.t) (id : string) :
  List.find (fun emp => String.eqb (Employee.employee_id emp) id) db = None <->
  ~ In id (map Employee.employee_id db).
Proof.
  split.
  - intros Hnone Hin. apply in_map_iff in Hin as (e & <- & He).
    pose proof (find_none _ _ Hnone e He) as Hf. cbn in Hf.
    now rewrite String.eqb_refl in Hf.
  - intros Hnot.
    destruct (List.find _ db) as [e|] eqn:Hfind; [|reflexivity].
    apply find_some in Hfind as [He Hid]. apply String.eqb_eq in Hid.
    destruct Hnot. apply in_map_iff. eauto.
Qed.

(** *** Looking a record up *)

(** [GET /payroll/:id] answers 200 with a record of the database that has
    the wanted id when there is one, and 404 when there is none. *)
Theorem get_payroll_id_outcome (db : list Employee.t) (id : string) :
  (In id (map Employee.employee_id db) ->
   exists employee,
     get_payroll_id db id = Sent 200 (OneRecord employee)
     /\ In employee db /\ Employee.employee_id employee = id)
  /\ (~ In id (map Employee.employee_id db) ->
      get_payroll_id db id = Sent 404 (ErrorMessage "Employee not found.")).
Proof.
  unfold get_payroll_id. split.
  - intros Hin.
    destruct (List.find _ db) as [e|] eqn:Hfind.
    + exists e. split; [reflexivity|].
      apply find_some in Hfind as [He Hid]. apply String.eqb_eq in Hid. auto.
    + apply find_id_None in Hfind. contradiction.
  - intros Hnot. apply find_id_None in Hnot. now rewrite Hnot.
Qed.

(** The second of the three sample records, and an id that is not
    there. *)
Lemma get_payroll_id_outcome_witness :
  get_payroll_id Requests.db "e201" =
    Sent 200 (OneRecord (Scenario.peer "e201" 30000))
  /\ get_payroll_id Requests.db "e999" =
       Sent 404 (ErrorMessage "Employee not found.").
Proof.
  split; [reflexivity|].
  apply (proj2 (get_payroll_id_outcome Requests.db "e999")).
  cbn. intros [H|[H|[H|[]]]]; discriminate H.
Defined.

(** *** Creating a record *)

(** What [POST /payroll] does when it answers 201. *)
Lemma post_payroll_created (db : list Employee.t) (body : PayrollBody.t)
    (status : nat) (answer : payload) (db' : list Employee.t) :
  post_payroll db body = (Sent status answer, Some db') ->
  validatePayroll body = Valid
  /\ ~ In (Employee.employee_id (record_of body))
          (map Employee.employee_id db)
  /\ status = 201%nat /\ answer = OneRecord (record_of body)
  /\ db' = db ++ [record_of body].
Proof.
  unfold post_payroll.
  destruct (validatePayroll body) eqn:Hvalid; [|discriminate].
  destruct (validatePayroll_valid_fields _ Hvalid)
    as (id & name & department & salary & bonus & deductions & -> & _).
  cbn [PayrollBody.employee_id is_string].
  destruct (List.find _ db) as [e|] eqn:Hfind; [discriminate|].
  cbv zeta. intros [= <- <- <-]. repeat split; try reflexivity.
  apply find_id_None. exact Hfind.
Qed.

(** [POST /payroll] keeps the ids of the database distinct: it writes an
    array only to add, at its end, a record whose id is not yet there. *)
Theorem post_payroll_keeps_ids_unique (db : list Employee.t)
    (body : PayrollBody.t) :
  NoDup (map Employee.employee_id db) ->
  NoDup (map Employee.employee_id (stored db (snd (post_payroll db body)))).
Proof.
  intros Hnodup.
  destruct (post_payroll db body) as [out [db'|]] eqn:Hpost; cbn;
    [|exact Hnodup].
  destruct out as [status answer|];
    try (unfold post_payroll in Hpost;
         destruct (validatePayroll body); [|discriminate];
         destruct (List.find _ db); discriminate).
  destruct (post_payroll_created _ _ _ _ _ Hpost) as (_ & Hnew & _ & _ & ->).
  rewrite map_app. cbn [map]. apply NoDup_app. split; [exact Hnodup|].
  split; [|apply NoDup_singleton].
  intros x Hx Hx'. apply list_elem_of_In in Hx.
  apply list_elem_of_singleton in Hx'. subst x. contradiction.
Qed.

(** A new id is added, an id that is there is refused. *)
Lemma post_payroll_keeps_ids_unique_witness :
  map Employee.employee_id
      (stored Requests.db
              (snd (post_payroll Requests.db
                      (Requests.body "e203" "Ravi" "Sales" 1 0 0))))
  = ["e101"; "e201"; "e202"; "e203"]
  /\ NoDup (map Employee.employee_id
                (stored Requests.db
                        (snd (post_payroll Requests.db
                                (Requests.body "e201" "Ravi" "Sales" 1 0 0))))).
Proof.
  split; [reflexivity|].
  apply post_payroll_keeps_ids_unique.
  apply (bool_decide_unpack _). vm_compute. exact I.
Defined.

(** After [POST /payroll] has answered 201, looking its id up in the
    array it wrote gives the record it sent back, an id that was not
    there before; every other id is looked up as before. *)
Theorem post_payroll_then_get (db db' : list Employee.t)
    (body : PayrollBody.t) (employee : Employee.t) :
  post_payroll db body = (Sent 201 (OneRecord employee), Some db') ->
  get_payroll_id db (Employee.employee_id employee) =
    Sent 404 (ErrorMessage "Employee not found.")
  /\ get_payroll_id db' (Employee.employee_id employee) =
       Sent 200 (OneRecord employee)
  /\ forall id,
       id <> Employee.employee_id employee ->
       get_payroll_id db' id = get_payroll_id db id.
Proof.
  intros Hpost.
  destruct (post_payroll_created _ _ _ _ _ Hpost)
    as (_ & Hnew & _ & [= ->] & ->).
  apply find_id_None in Hnew. unfold get_payroll_id.
  split; [now rewrite Hnew|]. split.
  - rewrite find_app, Hnew. cbn. now rewrite String.eqb_refl.
  - intros id Hid. rewrite find_app.
    destruct (List.find
                (fun emp => String.eqb (Employee.employee_id emp) id) db);
      [reflexivity|]. cbn [List.find].
    destruct (String.eqb_spec (Employee.employee_id (record_of body)) id);
      [congruence|reflexivity].
Qed.

(** Adding e203 to the three sample records. *)
Lemma post_payroll_then_get_witness :
  exists employee db',
    post_payroll Requests.db (Requests.body "e203" "Ravi" "Sales" 1 0 0) =
      (Sent 201 (OneRecord employee), Some db')
    /\ get_payroll_id db' "e203" = Sent 200 (OneRecord employee)
    /\ get_payroll_id db' "e101" = Sent 200 (OneRecord Scenario.asha).
Proof.
  eexists _, _. split; [reflexivity|].
  destruct (post_payroll_then_get
              Requests.db _ (Requests.body "e203" "Ravi" "Sales" 1 0 0) _
              eq_refl) as (_ & Hnew & Hold).
  split; [exact Hnew|].
  rewrite (Hold "e101"); [reflexivity|discriminate].
Defined.

(** *** Updating a record *)

(** [PUT /payroll/:id], when it answers 200, has put a record without
    [location] and with the id of the URL in the place of the first
    record with that id: the ids of the database, their order and their
    number are what they were, looking the id up gives the record sent
    back, and every other id is looked up as before. *)
Theorem put_payroll_id_replaces (db db' : list Employee.t) (id : string)
    (body : PayrollBody.t) (employee : Employee.t) :
  put_payroll_id db id body = (Sent 200 (OneRecord employee), Some db') ->
  Employee.employee_id employee = id
  /\ Employee.location employee = None
  /\ map Employee.employee_id db' = map Employee.employee_id db
  /\ get_payroll_id db' id = Sent 200 (OneRecord employee)
  /\ forall id',
       id' <> id -> get_payroll_id db' id' = get_payroll_id db id'.
Proof.
  unfold put_payroll_id.
  destruct (validatePayroll body) eqn:Hvalid; [|discriminate].
  destruct (is_string id (PayrollBody.employee_id body)) eqn:Hid;
    cbn [negb]; [|discriminate].
  destruct (findIndex _ db) as [i|] eqn:Hindex; [|discriminate].
  cbv zeta. intros [= <- <-].
  assert (Employee.employee_id (record_of body) = id) as Hrid.
  { cbn. destruct (PayrollBody.employee_id body); try discriminate.
    cbn in *. apply String.eqb_eq in Hid. congruence. }
  destruct (findIndex_Some _ _ _ Hindex) as (old & Hold & Holdid & Hbefore).
  apply String.eqb_eq in Holdid.
  split; [exact Hrid|]. split; [reflexivity|]. split; [|split].
  - apply (map_insert_same _ _ _ old); [exact Hold|congruence].
  - unfold get_payroll_id.
    rewrite (find_least _ (<[i:=record_of body]> db) i (record_of body)).
    + reflexivity.
    + apply list_lookup_insert_eq. now apply lookup_lt_Some in Hold.
    + now rewrite Hrid, String.eqb_refl.
    + intros j y Hj Hy. rewrite list_lookup_insert_ne in Hy by lia.
      exact (Hbefore j y Hj Hy).
  - intros id' Hid'. unfold get_payroll_id.
    rewrite (find_insert_other _ _ _ old); [reflexivity|exact Hold| |].
    + apply String.eqb_neq. congruence.
    + apply String.eqb_neq. congruence.
Qed.

(** Updating the first sample record, which has a location: the record
    that replaces it has none, and is taxed from the default table, 0
    instead of the 200 of Mumbai. *)
Lemma put_payroll_id_replaces_witness :
  exists employee db',
    put_payroll_id Requests.db "e101"
                   (Requests.body "e101" "Asha" "Engineering" 80000 10000 5000)
    = (Sent 200 (OneRecord employee), Some db')
    /\ Employee.location Scenario.asha = Some "Mumbai"
    /\ Employee.location employee = None
    /\ get_payroll_id db' "e101" = Sent 200 (OneRecord employee)
    /\ map Employee.employee_id db' = ["e101"; "e201"; "e202"].
Proof.
  eexists _, _. split; [reflexivity|]. split; [reflexivity|].
  destruct (put_payroll_id_replaces
              Requests.db _ "e101"
              (Requests.body "e101" "Asha" "Engineering" 80000 10000 5000) _
              eq_refl) as (_ & Hloc & Hids & Hget & _).
  split; [exact Hloc|]. split; [exact Hget|]. rewrite Hids. reflexivity.
Defined.

(** *** Deleting a record *)




(** *** From the API to the calculator *)



End PayrollApi.

(** ** The detection route *)

Section DetectionRoute.
Import JSNumber Http NetPayCalculator AnomalyDetector ServiceRoutes.
Local Open Scope list_scope.



End DetectionRoute.
